(** * statsd-zabbix-backend: the flush core of [lib/zabbix.js]

    A shallow embedding of the target resolver, the three item generators,
    the flush orchestrator, the initialisation and the status hook, with
    the properties of the specification proved (or refuted) over it.

    Modelling conventions.
    - JavaScript strings are [string]; the separators the code uses
      (['.'] and ['_']) are single characters.
    - A finite JavaScript number is an exact rational [Q]: rounding of
      doubles and the sign of zero are not modelled.  [NaN] and the two
      infinities are explicit constructors of [number].
    - [undefined] is [None].
    - An object used as a dictionary of settings is a [gmap string _].
    - The metric snapshot's mappings are association lists holding the
      entries in the order [Object.keys] enumerates them.
    - The clock, the logger and the [stats] object are threaded through a
      small state monad. *)

From stdpp Require Import base option list strings gmap.
From Stdlib Require Import ZArith QArith Qround Qreduction.
From Stdlib Require Import Ascii String DecimalString.
From Stdlib Require Import Sorting.Sorted Sorting.Permutation Lia Lqa.

Local Open Scope string_scope.
Local Open Scope list_scope.

(** ** JavaScript string primitives used by the code *)

Module JsString.

(** [s.split(sep)] for a one-character separator: never empty. *)
Fixpoint split (sep : ascii) (s : string) : list string :=
  match s with
  | EmptyString => [EmptyString]
  | String c s' =>
      if Ascii.eqb c sep then EmptyString :: split sep s'
      else match split sep s' with
           | [] => [String c EmptyString]
           | p :: ps => String c p :: ps
           end
  end.

(** [s.replace(/c/g, d)]: every occurrence. *)
Fixpoint replaceAll (c d : ascii) (s : string) : string :=
  match s with
  | EmptyString => EmptyString
  | String a s' => String (if Ascii.eqb a c then d else a) (replaceAll c d s')
  end.

(** [s.replace(c, d)] with a string pattern: the first occurrence only. *)
Fixpoint replaceFirst (c d : ascii) (s : string) : string :=
  match s with
  | EmptyString => EmptyString
  | String a s' =>
      if Ascii.eqb a c then String d s' else String a (replaceFirst c d s')
  end.

(** [s.startsWith(p)]. *)
Definition startsWith (s p : string) : bool := String.prefix p s.

(** Does [c] occur in [s]? *)
Fixpoint occurs (c : ascii) (s : string) : bool :=
  match s with
  | EmptyString => false
  | String a s' => Ascii.eqb a c || occurs c s'
  end.

(** [l.join(sep)]. *)
Fixpoint join (sep : ascii) (l : list string) : string :=
  match l with
  | [] => EmptyString
  | [x] => x
  | x :: l' => x ++ String sep (join sep l')
  end.

(** JavaScript truthiness of a possibly undefined string. *)
Definition truthy (o : option string) : bool :=
  match o with
  | Some (String _ _) => true
  | _ => false
  end.

End JsString.

(** ** Target resolver *)

Module Target.
Record t := mk { host : string; key : string }.
End Target.

(** The outcome of a call that may throw [new Error(msg)]. *)
Inductive result (A : Type) :=
| Ok (a : A)
| Throw (msg : string).
Arguments Ok {A} a.
Arguments Throw {A} msg.

Section Resolver.

(** [require('os').hostname()], fixed when the module is loaded. *)
Variable hostname : string.

(** The locals [host] and [key] of [targetDecode] when its guard is
    reached (lines 79-100). *)
Definition decodeParts (stat : string) : option string * option string :=
  let parts := JsString.split "." stat in
  if (JsString.startsWith stat "logstash." || JsString.startsWith stat "kamon.")
     && (List.length parts =? 3)%nat
  then
    let namespace := parts !! 0%nat in
    let host := parts !! 1%nat in
    let key := parts !! 2%nat in
    if bool_decide (namespace = Some "logstash") then
      (JsString.replaceAll "_" "." <$> host, JsString.replaceAll "_" "." <$> key)
    else if bool_decide (namespace = Some "kamon") then
      (JsString.replaceAll "_" "." <$> host, key)
    else (host, key)
  else if JsString.startsWith stat "statsd." then
    (Some hostname, Some stat)
  else
    let parts' := JsString.split "_" stat in
    (parts' !! 0%nat, parts' !! 1%nat).

(** [targetDecode] (lines 74-110).  Past the guard both locals are
    defined, so the last [Throw] is never taken. *)
Definition targetDecode (stat : string) : result Target.t :=
  let '(host, key) := decodeParts stat in
  if negb (JsString.truthy host) || negb (JsString.truthy key) then
    Throw ("failed to decode stat: " ++ stat)
  else
    match host, key with
    | Some h, Some k => Ok (Target.mk h k)
    | _, _ => Throw ("failed to decode stat: " ++ stat)
    end.

(** The condition of line 82-83: the name matches the first grammar. *)
Definition matchesGrammar1 (stat : string) : bool :=
  (JsString.startsWith stat "logstash." || JsString.startsWith stat "kamon.")
  && (List.length (JsString.split "." stat) =? 3)%nat.

(** [targetStatic] (lines 118-123). *)
Definition targetStatic (host stat : string) : Target.t :=
  Target.mk host stat.

End Resolver.


(** ** JavaScript numbers *)

Inductive number :=
| Fin (q : Q)
| PosInf
| NegInf
| NaN.

Module JsNumber.

(** [a + b]. *)
Definition add (a b : number) : number :=
  match a, b with
  | NaN, _ | _, NaN => NaN
  | PosInf, NegInf | NegInf, PosInf => NaN
  | PosInf, _ | _, PosInf => PosInf
  | NegInf, _ | _, NegInf => NegInf
  | Fin x, Fin y => Fin (Qred (x + y))
  end.

(** [a / b]; a zero divisor counts as [+0]. *)
Definition div (a b : number) : number :=
  match a, b with
  | NaN, _ | _, NaN => NaN
  | Fin x, Fin y =>
      if Qeq_bool y 0 then
        match Qcompare x 0 with
        | Eq => NaN
        | Gt => PosInf
        | Lt => NegInf
        end
      else Fin (Qred (x / y))
  | Fin _, _ => Fin 0
  | PosInf, Fin y => if Qle_bool 0 y then PosInf else NegInf
  | NegInf, Fin y => if Qle_bool 0 y then NegInf else PosInf
  | _, _ => NaN
  end.

(** [ToNumber] of a possibly undefined number. *)
Definition ofValue (v : option number) : number :=
  match v with
  | Some n => n
  | None => NaN
  end.

(** [v || 0]: [undefined], [NaN] and zero are falsy. *)
Definition orZero (v : option number) : number :=
  match v with
  | Some (Fin q) => if Qeq_bool q 0 then Fin 0 else Fin q
  | Some NaN | None => Fin 0
  | Some n => n
  end.

(** [Math.round]: the nearest integer, ties towards [+Infinity]. *)
Definition round (x : Q) : Z := Qfloor (x + (1 # 2)).

Definition digit (d : Z) : ascii := ascii_of_nat (48 + Z.to_nat d).

(** The decimal digits of [r / d] for [0 <= r < d]. *)
Fixpoint fraction (fuel : nat) (r d : Z) : string :=
  match fuel with
  | O => EmptyString
  | S fuel' =>
      if (r =? 0)%Z then EmptyString
      else String (digit (r * 10 / d)) (fraction fuel' (r * 10 mod d) d)
  end.

Definition ofInteger (z : Z) : string := NilZero.string_of_int (Z.to_int z).

(** [String(n)] in plain decimal notation, which is what JavaScript
    prints for integers below [1e21] and for short decimal fractions
    such as [99.9]; at most 20 fractional digits are produced. *)
Definition toString (n : number) : string :=
  match n with
  | NaN => "NaN"
  | PosInf => "Infinity"
  | NegInf => "-Infinity"
  | Fin q =>
      let a := Z.abs (Qnum q) in
      let d := Zpos (Qden q) in
      let sign := if (Qnum q <? 0)%Z then "-" else "" in
      let frac := fraction 20 (a mod d) d in
      sign ++ ofInteger (a / d)
           ++ (if String.eqb frac "" then "" else "." ++ frac)
  end.

End JsNumber.

(** ** Arrays of numbers *)

Module JsArray.

(** The comparator [(a, b) => (a - b)] of [itemsForTimer]. *)
Definition ascending (a b : Q) : Q := a - b.

(** Insertion of [x] in front of the first element it does not follow. *)
Fixpoint insert (cmp : Q -> Q -> Q) (x : Q) (l : list Q) : list Q :=
  match l with
  | [] => [x]
  | y :: l' => if Qle_bool (cmp x y) 0 then x :: l else y :: insert cmp x l'
  end.

(** [a.sort(cmp)]: the stable sort of the array by [cmp]. *)
Fixpoint sort (cmp : Q -> Q -> Q) (l : list Q) : list Q :=
  match l with
  | [] => []
  | x :: l' => insert cmp x (sort cmp l')
  end.

(** [a[i]] for an integer index: [undefined] out of range. *)
Definition get {A} (l : list A) (i : Z) : option A :=
  if (i <? 0)%Z then None else l !! Z.to_nat i.

(** [a.slice(0, e)]: a negative [e] counts from the end. *)
Definition slice0 {A} (l : list A) (e : Z) : list A :=
  let len := Z.of_nat (List.length l) in
  let e' := if (e <? 0)%Z then Z.max (len + e) 0 else Z.min e len in
  take (Z.to_nat e') l.

End JsArray.

(** ** Publish options *)

(** [readSetting(settings, settingName, defaultValue)] (lines 143-152);
    the flags are booleans. *)
Definition readSetting (settings : option (gmap string bool))
    (settingName : string) (defaultValue : bool) : bool :=
  match settings with
  | None => defaultValue
  | Some o =>
      match o !! settingName with
      | None => defaultValue
      | Some optValue => optValue
      end
  end.

(** ** Item generators *)

Module Item.
Record t := mk { host : string; key : string; value : number }.
End Item.

(** [items.push(x)]. *)
Definition push {A} (items : list A) (x : A) : list A := items ++ [x].

(** [itemsForCounter] (lines 163-186). *)
Definition itemsForCounter (publishOpts : option (gmap string bool))
    (flushInterval : Q) (host key : string) (value : Q) : list Item.t :=
  let items := [] in
  if readSetting publishOpts "enabled" true then
    let avg := JsNumber.div (Fin value) (JsNumber.div (Fin flushInterval) (Fin 1000)) in
    let items :=
      if readSetting publishOpts "send_total" true
      then push items (Item.mk host (key ++ "[total]") (Fin value))
      else items in
    let items :=
      if readSetting publishOpts "send_avg" true
      then push items (Item.mk host (key ++ "[avg]") avg)
      else items in
    items
  else items.

(** [Math.round(((100 - percentile) / 100) * count)] (line 240). *)
Definition thresholdIndex (percentile : Q) (count : Z) : Z :=
  JsNumber.round (((100 - percentile) / 100) * inject_Z count).

(** [percentile.toString().replace('.', '_')] (line 237). *)
Definition strPercentile (percentile : Q) : string :=
  JsString.replaceFirst "." "_" (JsNumber.toString (Fin percentile)).

(** The [for] loop of lines 246-249. *)
Definition sumOf (percentValues : list Q) (numInThreshold : Z) : number :=
  foldl (fun sum i => JsNumber.add sum (JsNumber.ofValue (Fin <$> percentValues !! i)))
        (Fin 0) (seq 0 (Z.to_nat numInThreshold)).

(** The locals the [forEach] callback of line 236 reads and writes. *)
Record timerLoop := TimerLoop {
  tl_items : list Item.t;
  tl_mean : option number;
  tl_maxAtThreshold : option number
}.

(** One call of the [forEach] callback (lines 236-269). *)
Definition timerStep (sendMeanPercentile sendUpperPercentile : bool)
    (host key : string) (values : list Q) (count : Z)
    (st : timerLoop) (percentile : Q) : timerLoop :=
  let strPercentile := strPercentile percentile in
  let '(mean, maxAtThreshold) :=
    if (1 <? count)%Z then
      let thresholdIndex := thresholdIndex percentile count in
      let numInThreshold := (count - thresholdIndex)%Z in
      let percentValues := JsArray.slice0 values numInThreshold in
      let maxAtThreshold := Fin <$> JsArray.get percentValues (numInThreshold - 1) in
      let sum := sumOf percentValues numInThreshold in
      (Some (JsNumber.div sum (Fin (inject_Z numInThreshold))), maxAtThreshold)
    else (tl_mean st, tl_maxAtThreshold st) in
  let items := tl_items st in
  let items :=
    if sendMeanPercentile
    then push items (Item.mk host (key ++ "[mean][" ++ strPercentile ++ "]")
                             (JsNumber.orZero mean))
    else items in
  let items :=
    if sendUpperPercentile
    then push items (Item.mk host (key ++ "[upper][" ++ strPercentile ++ "]")
                             (JsNumber.orZero maxAtThreshold))
    else items in
  TimerLoop items mean maxAtThreshold.

(** [itemsForTimer] (lines 197-273).  The second component is the content
    of the caller's array [data] when the call returns: [data.sort] sorts
    it in place. *)
Definition itemsForTimer (publishOpts : option (gmap string bool))
    (percentiles : list Q) (host key : string) (data : list Q)
    : list Item.t * list Q :=
  let items := [] in
  if readSetting publishOpts "enabled" true then
    let values := JsArray.sort JsArray.ascending data in
    let count := Z.of_nat (List.length values) in
    let min := JsArray.get values 0 in
    let max := JsArray.get values (count - 1) in
    let mean := Fin <$> min in
    let maxAtThreshold := Fin <$> max in
    let items :=
      if readSetting publishOpts "send_lower" true
      then push items (Item.mk host (key ++ "[lower]") (JsNumber.orZero (Fin <$> min)))
      else items in
    let items :=
      if readSetting publishOpts "send_upper" true
      then push items (Item.mk host (key ++ "[upper]") (JsNumber.orZero (Fin <$> max)))
      else items in
    let items :=
      if readSetting publishOpts "send_count" true
      then push items (Item.mk host (key ++ "[count]") (Fin (inject_Z count)))
      else items in
    let sendMeanPercentile := readSetting publishOpts "send_mean_percentile" true in
    let sendUpperPercentile := readSetting publishOpts "send_upper_percentile" true in
    let sendPercentile := sendMeanPercentile || sendUpperPercentile in
    let items :=
      if sendPercentile then
        tl_items (foldl (timerStep sendMeanPercentile sendUpperPercentile
                                   host key values count)
                        (TimerLoop items mean maxAtThreshold) percentiles)
      else items in
    (items, values)
  else (items, data).

(** Every flag [itemsForTimer] reads is on. *)
Definition allEnabled (publishOpts : option (gmap string bool)) : bool :=
  forallb (fun flag => readSetting publishOpts flag true)
          ["enabled"; "send_lower"; "send_upper"; "send_count";
           "send_mean_percentile"; "send_upper_percentile"].

(** [itemsForGauge] (lines 283-293). *)
Definition itemsForGauge (publishOpts : option (gmap string bool))
    (host key : string) (value : Q) : list Item.t :=
  let items := [] in
  if readSetting publishOpts "enabled" true
  then push items (Item.mk host key (Fin value))
  else items.

(** ** Self-observability state, logger and clock *)

Record stats := Stats {
  last_flush : Z;
  last_exception : Z;
  flush_time : Z;
  flush_length : Z
}.

Inductive level := DEBUG | ERROR | INFO.

(** What the code can observe and change besides its arguments: the
    module-level [stats] object (every field is set by [init], line
    424-427), the messages handed to the host's logger [l.log], and how
    many times the wall clock was read. *)
Record world := World {
  w_stats : stats;
  w_log : list (string * level);
  w_ticks : nat
}.

(** The state monad over [world]. *)
Definition M (A : Type) : Type := world -> A * world.

#[global] Instance M_ret : MRet M := fun A a w => (a, w).
#[global] Instance M_bind : MBind M :=
  fun A B f m w => let '(a, w') := m w in f a w'.

Notation "m ;;; k" := (mbind (fun _ => k) m)
  (at level 100, k at level 200, right associativity).

Definition getStats : M stats := fun w => (w_stats w, w).
Definition setStats (f : stats -> stats) : M unit :=
  fun w => (tt, World (f (w_stats w)) (w_log w) (w_ticks w)).

Definition set_last_flush (v : Z) (s : stats) : stats :=
  Stats v (last_exception s) (flush_time s) (flush_length s).
Definition set_last_exception (v : Z) (s : stats) : stats :=
  Stats (last_flush s) v (flush_time s) (flush_length s).
Definition set_flush_time (v : Z) (s : stats) : stats :=
  Stats (last_flush s) (last_exception s) v (flush_length s).
Definition set_flush_length (v : Z) (s : stats) : stats :=
  Stats (last_flush s) (last_exception s) (flush_time s) v.

(** [arr.forEach(f)] for a callback that updates an accumulator. *)
Fixpoint forEachM {A B} (f : B -> A -> M B) (l : list A) (acc : B) : M B :=
  match l with
  | [] => mret acc
  | x :: l' => acc' ← f acc x; forEachM f l' acc'
  end.

(** The metrics StatsD hands to [flush]; each mapping lists its entries
    in [Object.keys] order. *)
Record metrics := Metrics {
  counters : list (string * Q);
  timers : list (string * list Q);
  gauges : list (string * Q);
  pctThreshold : list Q
}.

(** The response object of the batch sender's completion callback. *)
Record response := Response {
  errors : option (list string);
  statusMessage : option string;
  total : option Z
}.

Definition name : string := "statsd-zabbix-backend".

(** The metric names of a snapshot, in the order [flush] visits them. *)
Definition statNames (m : metrics) : list string :=
  (counters m).*1 ++ (timers m).*1 ++ (gauges m).*1.

(** The state [init] leaves behind (lines 424-427). *)
Definition initialStats : stats := Stats 0 0 0 0.
Definition initialWorld : world := World initialStats [] 0.

(** ** Percentile statistics *)

(** The values the [count > 1] branch of the [forEach] callback assigns
    to [mean] and [maxAtThreshold] (lines 240-251). *)
Definition percentileStats (values : list Q) (count : Z) (percentile : Q)
    : option number * option number :=
  let thresholdIndex := thresholdIndex percentile count in
  let numInThreshold := (count - thresholdIndex)%Z in
  let percentValues := JsArray.slice0 values numInThreshold in
  let maxAtThreshold := Fin <$> JsArray.get percentValues (numInThreshold - 1) in
  let sum := sumOf percentValues numInThreshold in
  (Some (JsNumber.div sum (Fin (inject_Z numInThreshold))), maxAtThreshold).

(** The two items of one percentile, given its statistics. *)
Definition percentileItems (host key : string) (percentile : Q)
    (st : option number * option number) : list Item.t :=
  [Item.mk host (key ++ "[mean][" ++ strPercentile percentile ++ "]")
           (JsNumber.orZero st.1);
   Item.mk host (key ++ "[upper][" ++ strPercentile percentile ++ "]")
           (JsNumber.orZero st.2)].

(** Every flag name the three generators read. *)
Definition knownFlags : list string :=
  ["enabled"; "send_total"; "send_avg"; "send_lower"; "send_upper";
   "send_count"; "send_mean_percentile"; "send_upper_percentile"].

Definition b2n (b : bool) : nat := if b then 1 else 0.

(** ** Initialisation and status *)

(** The part of StatsD's configuration that [init] and [flush] read,
    without the transport's settings and the pluggable publisher. *)
Module Config.
Record t := mk {
  debug : bool;
  zabbixTargetHostname : option string;
  zabbixPublishItems : option (gmap string (gmap string bool));
  flushInterval : Q
}.
End Config.

(** What [init] installs: the debug switch of the [logger] closure and
    the arguments the ['flush'] handler is bound to (line 429). *)
Record bindings := Bindings {
  b_debug : bool;
  b_targetBuilder : string -> result Target.t;
  b_publishItems : gmap string (gmap string bool);
  b_flushInterval : Q
}.

(** [init] (lines 385-433) for a configuration without [zabbixPublisher]:
    the choice of the target builder, the default of the publish items
    and the reset of [stats]. *)
Definition init (hostname : string) (config : Config.t) : M bindings :=
  let targetBuilder :=
    if JsString.truthy (Config.zabbixTargetHostname config)
    then fun stat =>
           Ok (targetStatic (default "" (Config.zabbixTargetHostname config)) stat)
    else targetDecode hostname in
  setStats (set_last_flush 0);;;
  setStats (set_last_exception 0);;;
  setStats (set_flush_time 0);;;
  setStats (set_flush_length 0);;;
  mret (Bindings (Config.debug config) targetBuilder
                 (default ∅ (Config.zabbixPublishItems config))
                 (Config.flushInterval config)).

(** The properties of [stats] in the order [init] creates them. *)
Definition statsEntries (s : stats) : list (string * Z) :=
  [("last_flush", last_flush s); ("last_exception", last_exception s);
   ("flush_time", flush_time s); ("flush_length", flush_length s)].

(** [status(writeCb)] (lines 371-375): the argument lists of the calls of
    [writeCb], the first argument being [null]. *)
Definition status (w : world) : list (option string * string * string * Z) :=
  (fun '(stat, v) => (None, "zabbix", stat, v)) <$> statsEntries (w_stats w).

(** ** Sample inputs *)

(** A configuration with a static target host. *)
Definition staticConfig : Config.t :=
  Config.mk false (Some "zbx-host") None 10000.

(** A snapshot with two samples for one timer. *)
Definition twoSamples : list Q := [4; 2]%Q.

(** A clock that starts at 1000 and advances by one at each reading. *)
Definition sampleClock (k : nat) : Z := 1000 + Z.of_nat k.

(** Five metric names, of which [nohost] does not resolve. *)
Definition sampleMetrics : metrics :=
  Metrics [("web1_requests", 12%Q); ("nohost", 3%Q)]
          [("web1_latency", [3; 1; 2]%Q)]
          [("web2_load", 7%Q); ("web2_mem", 512%Q)]
          [90%Q].

(** A snapshot with a single gauge. *)
Definition gaugeOnly : metrics :=
  Metrics [] [] [("web1_load", 7%Q)] [].

(** A snapshot with a single counter. *)
Definition counterOnly : metrics :=
  Metrics [("web1_requests", 12%Q)] [] [] [].

Section Backend.

(** The [k]-th reading of [new Date().getTime()], already divided by
    1000 and rounded. *)
Variable clock : nat -> Z.

(** [config.debug]. *)
Variable configDebug : bool.

(** [tsNow()] (lines 51-53). *)
Definition tsNow : M Z :=
  fun w => (clock (w_ticks w), World (w_stats w) (w_log w) (S (w_ticks w))).

(** The [logger] closure installed by [init] (lines 386-391). *)
Definition logger (msg : string) (lvl : level) : M unit :=
  fun w =>
    match lvl with
    | DEBUG =>
        if negb configDebug then (tt, w)
        else (tt, World (w_stats w) (push (w_log w) (msg, lvl)) (w_ticks w))
    | _ => (tt, World (w_stats w) (push (w_log w) (msg, lvl)) (w_ticks w))
    end.

(** [log(level, msg)] (lines 61-63). *)
Definition log (lvl : level) (msg : string) : M unit :=
  logger (name ++ ": " ++ msg) lvl.

Definition debug : string -> M unit := log DEBUG.
Definition error : string -> M unit := log ERROR.
Definition info : string -> M unit := log INFO.

(** The [targetBuilder] argument of [flush]: [targetDecode], or
    [targetStatic] bound to the configured host. *)
Variable targetBuilder : string -> result Target.t.

(** The callback of the [forEach] of lines 317-320. *)
Definition pushItem (allItems : list Item.t) (item : Item.t) : M (list Item.t) :=
  let allItems := push allItems item in
  debug (Item.host item ++ " -> " ++ Item.key item ++ " -> "
         ++ JsNumber.toString (Item.value item));;;
  mret allItems.

(** [handle(processor, stat, value)] (lines 314-325); [allItems] is the
    array of the enclosing [flush].  A caught [Error] prints as
    ["Error: "] followed by its message. *)
Definition handle {V} (processor : string -> string -> V -> list Item.t)
    (stat : string) (value : V) (allItems : list Item.t) : M (list Item.t) :=
  match targetBuilder stat with
  | Ok t =>
      forEachM pushItem (processor (Target.host t) (Target.key t) value) allItems
  | Throw msg =>
      now ← tsNow;
      setStats (set_last_exception now);;;
      error ("Error: " ++ msg);;;
      mret allItems
  end.

(** What [handle] appends to [allItems] for one entry of a mapping. *)
Definition resolved {V} (processor : string -> string -> V -> list Item.t)
    (entry : string * V) : list Item.t :=
  match targetBuilder (fst entry) with
  | Ok t => processor (Target.host t) (Target.key t) (snd entry)
  | Throw _ => []
  end.

(** Does the resolution of [stat] throw? *)
Definition failing (stat : string) : bool :=
  match targetBuilder stat with
  | Ok _ => false
  | Throw _ => true
  end.

(** Is [response.errors && response.errors.length > 0] truthy? *)
Definition hasErrors (r : response) : bool :=
  match errors r with
  | Some (_ :: _) => true
  | _ => false
  end.

(** The completion callback handed to [constructSender] (lines 346-360). *)
Definition onResponse (timestamp flushStart : Z) (allItems : list Item.t)
    (r : response) : M unit :=
  (if hasErrors r then
     now ← tsNow;
     setStats (set_last_exception now);;;
     error (default "undefined" (errors r ≫= head))
   else
     setStats (set_last_flush timestamp);;;
     s ← getStats;
     setStats (set_flush_time (flushStart - last_flush s));;;
     s ← getStats;
     debug ("flush completed in " ++ JsNumber.ofInteger (flush_time s) ++ " seconds"));;;
  (if JsString.truthy (statusMessage r)
   then info (default "" (statusMessage r))
   else mret tt);;;
  setStats (set_flush_length
              (Z.max (default 0%Z (total r)) (Z.of_nat (List.length allItems)))).

(** [flush] (lines 309-364).  [constructSender] and [publisher] belong to
    the transport: the result is the pair of arguments the code passes
    on, the item list given to [publisher] and the callback the sender is
    constructed with. *)
Definition flush (publishItems : gmap string (gmap string bool))
    (flushInterval : Q) (timestamp : Z) (metrics : metrics)
    : M (list Item.t * (response -> M unit)) :=
  debug ("starting flush for timestamp " ++ JsNumber.ofInteger timestamp);;;
  let allItems := [] in
  flushStart ← tsNow;
  let counterProcessor := itemsForCounter (publishItems !! "counters") flushInterval in
  allItems ← forEachM
    (fun allItems '(stat, value) => handle counterProcessor stat value allItems)
    (counters metrics) allItems;
  let timerProcessor := fun host key data =>
    fst (itemsForTimer (publishItems !! "timers") (pctThreshold metrics) host key data) in
  allItems ← forEachM
    (fun allItems '(stat, value) => handle timerProcessor stat value allItems)
    (timers metrics) allItems;
  let guageProcessor := itemsForGauge (publishItems !! "guages") in
  allItems ← forEachM
    (fun allItems '(stat, value) => handle guageProcessor stat value allItems)
    (gauges metrics) allItems;
  setStats (set_flush_length (Z.of_nat (List.length allItems)));;;
  s ← getStats;
  debug ("flushing " ++ JsNumber.ofInteger (flush_length s) ++ " items to zabbix");;;
  mret (allItems, onResponse timestamp flushStart allItems).

(** The items of the metrics that resolve, in the order of the three
    loops of [flush]. *)
Definition generated (publishItems : gmap string (gmap string bool))
    (flushInterval : Q) (metrics : metrics) : list Item.t :=
  flat_map (resolved (itemsForCounter (publishItems !! "counters") flushInterval))
           (counters metrics)
  ++ flat_map (resolved (fun host key data =>
                 fst (itemsForTimer (publishItems !! "timers")
                                    (pctThreshold metrics) host key data)))
              (timers metrics)
  ++ flat_map (resolved (itemsForGauge (publishItems !! "guages")))
              (gauges metrics).

(** How many of the names fail to resolve. *)
Definition failures (names : list string) : nat :=
  List.length (List.filter failing names).

(** [w'] is [w] after [k] failed resolutions and nothing else that
    touches the clock or the two timestamps of [stats]: the clock was read
    [k] times and [last_exception] holds the last of these readings. *)
Definition advanced (k : nat) (w w' : world) : Prop :=
  w_ticks w' = (w_ticks w + k)%nat
  /\ last_flush (w_stats w') = last_flush (w_stats w)
  /\ last_exception (w_stats w')
     = match k with
       | O => last_exception (w_stats w)
       | S k' => clock (w_ticks w + k')
       end.

(** What [handle] hands to the logger at level ERROR for the names that
    fail to resolve. *)
Definition failureLog (names : list string) : list (string * level) :=
  flat_map (fun stat =>
              match targetBuilder stat with
              | Ok _ => []
              | Throw msg => [((name ++ ": " ++ "Error: " ++ msg)%string, ERROR)]
              end) names.

(** ** Flush orchestrator: properties *)

Lemma bind_run {A B} (m : M A) (f : A -> M B) w :
  (m ≫= f) w = f (m w).1 (m w).2.
Proof. unfold mbind, M_bind. destruct (m w). reflexivity. Qed.

Lemma advanced_refl w : advanced 0 w w.
Proof. unfold advanced. rewrite Nat.add_0_r. auto. Qed.

Lemma advanced_trans j k w w' w'' :
  advanced j w w' -> advanced k w' w'' -> advanced (j + k) w w''.
Proof.
  unfold advanced. intros (Ht & Hf & He) (Ht' & Hf' & He').
  split; [lia|]. split; [congruence|].
  rewrite He'. destruct k as [|k'].
  - rewrite Nat.add_0_r. exact He.
  - rewrite Ht. replace (j + S k')%nat with (S (j + k')) by lia.
    f_equal. lia.
Qed.

Lemma debug_advanced msg w : advanced 0 w (debug msg w).2.
Proof.
  unfold debug, log, logger. destruct configDebug; simpl;
    unfold advanced; simpl; rewrite Nat.add_0_r; auto.
Qed.

Lemma debug_stats msg w : w_stats (debug msg w).2 = w_stats w.
Proof. unfold debug, log, logger. destruct configDebug; reflexivity. Qed.

Lemma pushItem_spec acc x w :
  (pushItem acc x w).1 = acc ++ [x] /\ advanced 0 w (pushItem acc x w).2.
Proof.
  unfold pushItem. cbv zeta. rewrite bind_run. simpl.
  split; [reflexivity | apply debug_advanced].
Qed.

(** The inner [forEach] of [handle]: the items are appended in order. *)
Lemma pushAll_spec (items acc : list Item.t) w :
  (forEachM pushItem items acc w).1 = acc ++ items
  /\ advanced 0 w (forEachM pushItem items acc w).2.
Proof.
  revert acc w. induction items as [|x items IH]; intros acc w.
  - simpl. rewrite app_nil_r. split; [reflexivity | apply advanced_refl].
  - cbn [forEachM]. rewrite bind_run.
    destruct (pushItem_spec acc x w) as [Hfst Hsnd].
    destruct (IH (pushItem acc x w).1 (pushItem acc x w).2) as [Hfst' Hsnd'].
    split.
    + rewrite Hfst', Hfst, <- app_assoc. reflexivity.
    + exact (advanced_trans 0 0 _ _ _ Hsnd Hsnd').
Qed.

(** One metric: its items are appended when it resolves; otherwise the
    clock is read once and kept in [last_exception]. *)
Lemma handle_spec {V} (processor : string -> string -> V -> list Item.t)
    stat value acc w :
  (handle processor stat value acc w).1 = acc ++ resolved processor (stat, value)
  /\ advanced (if failing stat then 1 else 0) w
              (handle processor stat value acc w).2.
Proof.
  unfold handle, resolved, failing. simpl.
  destruct (targetBuilder stat) as [t | msg].
  - apply pushAll_spec.
  - rewrite app_nil_r. split; [reflexivity|].
    unfold advanced. simpl. rewrite Nat.add_0_r. auto with lia.
Qed.

Lemma failures_cons stat names :
  failures (stat :: names)
  = ((if failing stat then 1 else 0) + failures names)%nat.
Proof.
  unfold failures. simpl. destruct (failing stat); reflexivity.
Qed.

Lemma failures_app l1 l2 :
  failures (l1 ++ l2) = (failures l1 + failures l2)%nat.
Proof.
  unfold failures. rewrite List.filter_app, length_app. reflexivity.
Qed.

(** One category: the loop over the entries of a mapping. *)
Lemma loop_spec {V} (processor : string -> string -> V -> list Item.t)
    (entries : list (string * V)) acc w :
  let run :=
    forEachM (fun allItems '(stat, value) => handle processor stat value allItems)
             entries acc w in
  run.1 = acc ++ flat_map (resolved processor) entries
  /\ advanced (failures entries.*1) w run.2.
Proof.
  revert acc w. induction entries as [|[stat value] entries IH]; intros acc w.
  - simpl. rewrite app_nil_r. split; [reflexivity | apply advanced_refl].
  - cbn [forEachM]. cbv zeta. rewrite bind_run.
    destruct (handle_spec processor stat value acc w) as [Hfst Hsnd].
    destruct (IH (handle processor stat value acc w).1
                 (handle processor stat value acc w).2) as [Hfst' Hsnd'].
    split.
    + cbv zeta in Hfst'. rewrite Hfst', Hfst. simpl. rewrite <- app_assoc. reflexivity.
    + cbn [fmap list_fmap fst]. rewrite failures_cons.
      exact (advanced_trans _ _ _ _ _ Hsnd Hsnd').
Qed.

(** The synchronous part of [flush]. *)
Lemma flush_spec publishItems flushInterval timestamp m w0 :
  let run := flush publishItems flushInterval timestamp m w0 in
  let items := generated publishItems flushInterval m in
  run.1 = (items, onResponse timestamp (clock (w_ticks w0)) items)
  /\ advanced (failures (statNames m))
              (World (w_stats w0) (w_log w0) (S (w_ticks w0))) run.2
  /\ flush_length (w_stats run.2) = Z.of_nat (List.length items).
Proof.
  cbv zeta. unfold flush, generated.
  rewrite bind_run; cbv beta.
  pose proof (debug_advanced
                ("starting flush for timestamp " ++ JsNumber.ofInteger timestamp) w0)
    as Ha.
  pose proof (debug_stats
                ("starting flush for timestamp " ++ JsNumber.ofInteger timestamp) w0)
    as Hs.
  set (wa := (debug _ w0).2) in *.
  rewrite bind_run; cbv beta.
  change (tsNow wa).1 with (clock (w_ticks wa)).
  change (tsNow wa).2 with (World (w_stats wa) (w_log wa) (S (w_ticks wa))).
  set (wb := World (w_stats wa) (w_log wa) (S (w_ticks wa))).
  rewrite bind_run; cbv beta.
  destruct (loop_spec (itemsForCounter (publishItems !! "counters") flushInterval)
              (counters m) [] wb) as [Hc1 Hc2].
  set (rc := forEachM _ (counters m) [] wb) in *.
  rewrite bind_run; cbv beta.
  destruct (loop_spec (fun host key data =>
                         (itemsForTimer (publishItems !! "timers")
                                        (pctThreshold m) host key data).1)
              (timers m) rc.1 rc.2) as [Ht1 Ht2].
  set (rt := forEachM _ (timers m) rc.1 rc.2) in *.
  rewrite bind_run; cbv beta.
  destruct (loop_spec (itemsForGauge (publishItems !! "guages"))
              (gauges m) rt.1 rt.2) as [Hg1 Hg2].
  set (rg := forEachM _ (gauges m) rt.1 rt.2) in *.
  assert (Hitems : rg.1 = generated publishItems flushInterval m).
  { rewrite Hg1, Ht1, Hc1. unfold generated. simpl. rewrite <- app_assoc.
    reflexivity. }
  unfold generated in Hitems. rewrite <- Hitems.
  assert (Hloops : advanced (failures (statNames m)) wb rg.2).
  { unfold statNames. rewrite !failures_app.
    exact (advanced_trans _ _ _ _ _ Hc2 (advanced_trans _ _ _ _ _ Ht2 Hg2)). }
  repeat (rewrite bind_run; cbv beta).
  set (wc := (setStats (set_flush_length (Z.of_nat (List.length rg.1))) rg.2).2).
  pose proof (debug_advanced
                ("flushing " ++ JsNumber.ofInteger (flush_length (getStats wc).1)
                 ++ " items to zabbix") (getStats wc).2) as Hd.
  pose proof (debug_stats
                ("flushing " ++ JsNumber.ofInteger (flush_length (getStats wc).1)
                 ++ " items to zabbix") (getStats wc).2) as Hds.
  set (wd := (debug _ (getStats wc).2).2) in *.
  destruct Ha as (Ha1 & _ & _). rewrite Nat.add_0_r in Ha1.
  split; [|split].
  - simpl. rewrite Ha1. reflexivity.
  - simpl. destruct Hloops as (Hl1 & Hl2 & Hl3). destruct Hd as (Hd1 & Hd2 & Hd3).
    unfold advanced. simpl in *. rewrite Nat.add_0_r in Hd1.
    rewrite Hd1, Hd2, Hd3, Hl1, Hl2, Hl3, Hs, Ha1. auto.
  - simpl. rewrite Hds. reflexivity.
Qed.

(** The completion callback on a response without errors. *)
Lemma onResponse_success timestamp flushStart allItems r w :
  hasErrors r = false ->
  let w' := (onResponse timestamp flushStart allItems r w).2 in
  last_flush (w_stats w') = timestamp
  /\ flush_time (w_stats w') = (flushStart - timestamp)%Z
  /\ last_exception (w_stats w') = last_exception (w_stats w)
  /\ w_ticks w' = w_ticks w.
Proof.
  intros Hok. cbv zeta. unfold onResponse. rewrite Hok.
  repeat (rewrite bind_run; cbv beta).
  unfold debug, info, log, logger.
  destruct configDebug, (JsString.truthy (statusMessage r)); simpl; auto.
Qed.

(** The completion callback on a response that carries errors. *)
Lemma onResponse_failure timestamp flushStart allItems r e es w :
  errors r = Some (e :: es) ->
  let w' := (onResponse timestamp flushStart allItems r w).2 in
  last_exception (w_stats w') = clock (w_ticks w)
  /\ last_flush (w_stats w') = last_flush (w_stats w)
  /\ flush_time (w_stats w') = flush_time (w_stats w)
  /\ w_log w'
     = w_log w
       ++ ((name ++ ": " ++ e)%string, ERROR)
          :: (if JsString.truthy (statusMessage r)
              then [((name ++ ": " ++ default "" (statusMessage r))%string, INFO)]
              else []).
Proof.
  intros Herr. cbv zeta. unfold onResponse, hasErrors. rewrite Herr.
  repeat (rewrite bind_run; cbv beta).
  unfold error, info, log, logger, push.
  destruct (JsString.truthy (statusMessage r)); simpl;
    rewrite <- ?app_assoc; auto.
Qed.

Lemma hasErrors_absent r :
  errors r = None \/ errors r = Some [] -> hasErrors r = false.
Proof. unfold hasErrors. intros [-> | ->]; reflexivity. Qed.

(** C3: when the response has no [errors] field or an empty one, the
    callback sets [last_flush] to the timestamp given to [flush] and
    [flush_time] to the clock reading taken at the start of [flush] minus
    that timestamp. *)
Theorem flush_success_callback publishItems flushInterval timestamp m w0 r w :
  errors r = None \/ errors r = Some [] ->
  let callback := (flush publishItems flushInterval timestamp m w0).1.2 in
  let w' := (callback r w).2 in
  last_flush (w_stats w') = timestamp
  /\ flush_time (w_stats w') = (clock (w_ticks w0) - timestamp)%Z.
Proof.
  intros Hok%hasErrors_absent. cbv zeta.
  destruct (flush_spec publishItems flushInterval timestamp m w0) as (-> & _).
  destruct (onResponse_success timestamp (clock (w_ticks w0))
              (generated publishItems flushInterval m) r w Hok) as (H1 & H2 & _).
  split; assumption.
Qed.

(** C7: when the response carries a non-empty [errors] sequence, the
    callback stores the current clock reading in [last_exception], hands
    the first error, and no other, to the logger at level ERROR, and
    leaves [last_flush] as it was. *)
Theorem flush_error_callback publishItems flushInterval timestamp m w0 r e es w :
  errors r = Some (e :: es) ->
  let callback := (flush publishItems flushInterval timestamp m w0).1.2 in
  let w' := (callback r w).2 in
  last_exception (w_stats w') = clock (w_ticks w)
  /\ last_flush (w_stats w') = last_flush (w_stats w)
  /\ w_log w'
     = w_log w
       ++ ((name ++ ": " ++ e)%string, ERROR)
          :: (if JsString.truthy (statusMessage r)
              then [((name ++ ": " ++ default "" (statusMessage r))%string, INFO)]
              else []).
Proof.
  intros Herr. cbv zeta.
  destruct (flush_spec publishItems flushInterval timestamp m w0) as (-> & _).
  destruct (onResponse_failure timestamp (clock (w_ticks w0))
              (generated publishItems flushInterval m) r e es w Herr)
    as (H1 & H2 & _ & H4).
  repeat split; assumption.
Qed.

(** C6: when exactly one metric name of the snapshot fails to resolve,
    [flush] still hands over the items of every other metric, in order;
    [last_exception] holds the clock reading taken when the failure was
    caught; and once the transport answers without errors [last_flush] is
    the flush timestamp while [last_exception] keeps that reading. *)
Theorem flush_isolates_failure publishItems flushInterval timestamp m w0 r :
  failures (statNames m) = 1%nat ->
  hasErrors r = false ->
  let run := flush publishItems flushInterval timestamp m w0 in
  let w' := (run.1.2 r run.2).2 in
  run.1.1 = generated publishItems flushInterval m
  /\ last_exception (w_stats run.2) = clock (S (w_ticks w0))
  /\ last_flush (w_stats w') = timestamp
  /\ last_exception (w_stats w') = clock (S (w_ticks w0)).
Proof.
  intros Hone Hok. cbv zeta.
  destruct (flush_spec publishItems flushInterval timestamp m w0)
    as (Hres & (_ & _ & Hexc) & _).
  rewrite Hone in Hexc. simpl in Hexc. rewrite Nat.add_0_r in Hexc.
  rewrite Hres. simpl.
  destruct (onResponse_success timestamp (clock (w_ticks w0))
              (generated publishItems flushInterval m) r
              (flush publishItems flushInterval timestamp m w0).2 Hok)
    as (H1 & _ & H3 & _).
  repeat split; congruence.
Qed.

(** *** Further properties of the orchestrator *)

(** The synchronous part of [flush] reads the clock once at its start and
    once more for every name that fails to resolve; it never writes
    [last_flush], and [last_exception] changes only when a name fails, to
    the last reading taken. *)
Theorem flush_clock_accounting publishItems flushInterval timestamp m w0 :
  let w1 := (flush publishItems flushInterval timestamp m w0).2 in
  w_ticks w1 = S (w_ticks w0 + failures (statNames m))
  /\ last_flush (w_stats w1) = last_flush (w_stats w0)
  /\ last_exception (w_stats w1)
     = match failures (statNames m) with
       | O => last_exception (w_stats w0)
       | S k => clock (S (w_ticks w0 + k))
       end.
Proof.
  cbv zeta.
  destruct (flush_spec publishItems flushInterval timestamp m w0)
    as (_ & (Ht & Hf & He) & _).
  simpl in Ht, Hf, He. auto.
Qed.

(** When [flush] returns, [flush_length] is the number of items it hands
    to the publisher. *)
Theorem flush_length_sync publishItems flushInterval timestamp m w0 :
  let run := flush publishItems flushInterval timestamp m w0 in
  flush_length (w_stats run.2) = Z.of_nat (List.length run.1.1).
Proof.
  cbv zeta.
  destruct (flush_spec publishItems flushInterval timestamp m w0)
    as (Hres & _ & Hlen).
  rewrite Hres. exact Hlen.
Qed.

Lemma onResponse_flush_length timestamp flushStart allItems r w :
  flush_length (w_stats (onResponse timestamp flushStart allItems r w).2)
  = Z.max (default 0%Z (total r)) (Z.of_nat (List.length allItems)).
Proof.
  unfold onResponse. repeat (rewrite bind_run; cbv beta). reflexivity.
Qed.

(** Whatever the response, the callback leaves in [flush_length] the
    larger of the transport's [total] (0 when absent) and the number of
    items of the flush. *)
Theorem flush_callback_length publishItems flushInterval timestamp m w0 r w :
  let run := flush publishItems flushInterval timestamp m w0 in
  flush_length (w_stats (run.1.2 r w).2)
  = Z.max (default 0%Z (total r)) (Z.of_nat (List.length run.1.1)).
Proof.
  cbv zeta.
  destruct (flush_spec publishItems flushInterval timestamp m w0) as (-> & _).
  apply onResponse_flush_length.
Qed.

Lemma onResponse_frame timestamp flushStart allItems r w :
  let w' := (onResponse timestamp flushStart allItems r w).2 in
  if hasErrors r
  then flush_time (w_stats w') = flush_time (w_stats w)
       /\ w_ticks w' = S (w_ticks w)
  else last_exception (w_stats w') = last_exception (w_stats w)
       /\ w_ticks w' = w_ticks w.
Proof.
  cbv zeta. unfold onResponse.
  destruct (hasErrors r); repeat (rewrite bind_run; cbv beta);
    unfold debug, error, info, log, logger;
    destruct configDebug, (JsString.truthy (statusMessage r)); simpl; auto.
Qed.

(** What the callback leaves alone: on errors it keeps [flush_time] and
    reads the clock exactly once; without errors it keeps
    [last_exception] and does not read the clock. *)
Theorem flush_callback_frame publishItems flushInterval timestamp m w0 r w :
  let w' := ((flush publishItems flushInterval timestamp m w0).1.2 r w).2 in
  if hasErrors r
  then flush_time (w_stats w') = flush_time (w_stats w)
       /\ w_ticks w' = S (w_ticks w)
  else last_exception (w_stats w') = last_exception (w_stats w)
       /\ w_ticks w' = w_ticks w.
Proof.
  cbv zeta.
  destruct (flush_spec publishItems flushInterval timestamp m w0) as (-> & _).
  apply onResponse_frame.
Qed.

(** *** Logging with [config.debug] off *)

Lemma failureLog_app l1 l2 :
  failureLog (l1 ++ l2) = failureLog l1 ++ failureLog l2.
Proof. unfold failureLog. apply flat_map_app. Qed.

Lemma debug_off msg w : configDebug = false -> debug msg w = (tt, w).
Proof.
  intros Hoff. unfold debug, log, logger. rewrite Hoff. reflexivity.
Qed.

Lemma pushAll_off items acc w :
  configDebug = false -> forEachM pushItem items acc w = (acc ++ items, w).
Proof.
  intros Hoff. revert acc. induction items as [|x items IH]; intros acc.
  - simpl. rewrite app_nil_r. reflexivity.
  - assert (Hstep : pushItem acc x w = (push acc x, w)).
    { unfold pushItem. cbv zeta. rewrite bind_run, (debug_off _ _ Hoff).
      reflexivity. }
    cbn [forEachM]. rewrite bind_run, Hstep. cbn [fst snd].
    rewrite IH. unfold push. rewrite <- app_assoc. reflexivity.
Qed.

Lemma handle_log {V} (processor : string -> string -> V -> list Item.t)
    stat value acc w :
  configDebug = false ->
  w_log (handle processor stat value acc w).2 = w_log w ++ failureLog [stat].
Proof.
  intros Hoff. unfold handle, failureLog. simpl.
  destruct (targetBuilder stat) as [t | msg].
  - rewrite (pushAll_off _ _ _ Hoff). simpl. rewrite app_nil_r. reflexivity.
  - reflexivity.
Qed.

Lemma loop_log {V} (processor : string -> string -> V -> list Item.t)
    (entries : list (string * V)) acc w :
  configDebug = false ->
  w_log (forEachM (fun allItems '(stat, value) =>
                     handle processor stat value allItems) entries acc w).2
  = w_log w ++ failureLog entries.*1.
Proof.
  intros Hoff. revert acc w.
  induction entries as [|[stat value] entries IH]; intros acc w.
  - simpl. rewrite app_nil_r. reflexivity.
  - cbn [forEachM]. cbv zeta. rewrite bind_run, IH.
    rewrite (handle_log _ _ _ _ _ Hoff).
    cbn [fmap list_fmap fst].
    change (stat :: entries.*1) with ([stat] ++ entries.*1).
    rewrite failureLog_app, <- app_assoc. reflexivity.
Qed.

(** With [config.debug] off, the synchronous part of [flush] hands the
    logger one ERROR message for every name that fails to resolve, in the
    order of the snapshot, and nothing else. *)
Theorem flush_log_quiet publishItems flushInterval timestamp m w0 :
  configDebug = false ->
  w_log (flush publishItems flushInterval timestamp m w0).2
  = w_log w0 ++ failureLog (statNames m).
Proof.
  intros Hoff. unfold flush, statNames.
  rewrite bind_run, (debug_off _ _ Hoff); cbv beta. cbn [fst snd].
  rewrite bind_run; cbv beta.
  change (tsNow w0).1 with (clock (w_ticks w0)).
  change (tsNow w0).2 with (World (w_stats w0) (w_log w0) (S (w_ticks w0))).
  set (wb := World (w_stats w0) (w_log w0) (S (w_ticks w0))).
  rewrite bind_run; cbv beta.
  pose proof (loop_log (itemsForCounter (publishItems !! "counters") flushInterval)
                (counters m) [] wb Hoff) as Hc.
  set (rc := forEachM _ (counters m) [] wb) in *.
  rewrite bind_run; cbv beta.
  pose proof (loop_log (fun host key data =>
                          (itemsForTimer (publishItems !! "timers")
                                         (pctThreshold m) host key data).1)
                (timers m) rc.1 rc.2 Hoff) as Ht.
  set (rt := forEachM _ (timers m) rc.1 rc.2) in *.
  rewrite bind_run; cbv beta.
  pose proof (loop_log (itemsForGauge (publishItems !! "guages"))
                (gauges m) rt.1 rt.2 Hoff) as Hg.
  set (rg := forEachM _ (gauges m) rt.1 rt.2) in *.
  repeat (rewrite bind_run; cbv beta).
  rewrite (debug_off _ _ Hoff). simpl.
  rewrite Hg, Ht, Hc, !failureLog_app, <- !app_assoc. reflexivity.
Qed.

End Backend.

Lemma flush_success_callback_witness :
  let callback :=
    (flush sampleClock false (targetDecode "localhost") ∅ 10000 990
           sampleMetrics initialWorld).1.2 in
  let w' := (callback (Response (Some []) None (Some 8%Z)) initialWorld).2 in
  last_flush (w_stats w') = 990%Z
  /\ flush_time (w_stats w') = (sampleClock 0 - 990)%Z.
Proof.
  apply (flush_success_callback sampleClock false (targetDecode "localhost")
           ∅ 10000 990 sampleMetrics initialWorld).
  right. reflexivity.
Defined.

Lemma flush_error_callback_witness :
  let callback :=
    (flush sampleClock false (targetDecode "localhost") ∅ 10000 990
           sampleMetrics initialWorld).1.2 in
  let r := Response (Some ["timeout"; "refused"]) (Some "retry later") None in
  let w' := (callback r initialWorld).2 in
  last_exception (w_stats w') = sampleClock 0
  /\ last_flush (w_stats w') = 0%Z
  /\ w_log w'
     = [("statsd-zabbix-backend: timeout", ERROR);
        ("statsd-zabbix-backend: retry later", INFO)].
Proof.
  apply (flush_error_callback sampleClock false (targetDecode "localhost")
           ∅ 10000 990 sampleMetrics initialWorld
           (Response (Some ["timeout"; "refused"]) (Some "retry later") None)
           "timeout" ["refused"] initialWorld).
  reflexivity.
Defined.

Lemma flush_isolates_failure_witness :
  let run := flush sampleClock false (targetDecode "localhost") ∅ 10000 990
                   sampleMetrics initialWorld in
  let w' := (run.1.2 (Response None None None) run.2).2 in
  run.1.1 = generated (targetDecode "localhost") ∅ 10000 sampleMetrics
  /\ last_exception (w_stats run.2) = sampleClock 1
  /\ last_flush (w_stats w') = 990%Z
  /\ last_exception (w_stats w') = sampleClock 1.
Proof.
  apply (flush_isolates_failure sampleClock false (targetDecode "localhost")
           ∅ 10000 990 sampleMetrics initialWorld (Response None None None));
    reflexivity.
Defined.


Lemma flush_log_quiet_witness :
  w_log (flush sampleClock false (targetDecode "localhost") ∅ 10000 990
               sampleMetrics initialWorld).2
  = w_log initialWorld
    ++ failureLog (targetDecode "localhost") (statNames sampleMetrics).
Proof.
  apply (flush_log_quiet sampleClock false (targetDecode "localhost")
           ∅ 10000 990 sampleMetrics initialWorld).
  reflexivity.
Defined.

(** ** Initialisation and status: properties *)

(** Whatever the state before, after [init] the status hook reports the
    four fields of [stats], all 0, under the category [zabbix] and with a
    [null] error. *)
Lemma init_resets_status hostname config w :
  status (init hostname config w).2
  = [(None, "zabbix", "last_flush", 0%Z);
     (None, "zabbix", "last_exception", 0%Z);
     (None, "zabbix", "flush_time", 0%Z);
     (None, "zabbix", "flush_length", 0%Z)].
Proof. reflexivity. Qed.

Lemma init_world hostname config w :
  (init hostname config w).2 = World initialStats (w_log w) (w_ticks w).
Proof. reflexivity. Qed.

(** One whole cycle: [init], a flush, and the transport's answer without
    errors.  The status hook then reports the flush timestamp as
    [last_flush], the reading of the last failed resolution (0 when none
    failed) as [last_exception], the start of the flush minus its
    timestamp as [flush_time], and the larger of the transport's total and
    the number of items as [flush_length]. *)
Theorem status_after_flush clock hostname config timestamp m r w :
  hasErrors r = false ->
  let b := (init hostname config w).1 in
  let run := flush clock (b_debug b) (b_targetBuilder b) (b_publishItems b)
                   (b_flushInterval b) timestamp m (init hostname config w).2 in
  status (run.1.2 r run.2).2
  = [(None, "zabbix", "last_flush", timestamp);
     (None, "zabbix", "last_exception",
      match failures (b_targetBuilder b) (statNames m) with
      | O => 0%Z
      | S k => clock (S (w_ticks w + k))
      end);
     (None, "zabbix", "flush_time", (clock (w_ticks w) - timestamp)%Z);
     (None, "zabbix", "flush_length",
      Z.max (default 0%Z (total r)) (Z.of_nat (List.length run.1.1)))].
Proof.
  intros Hok. cbv zeta. rewrite init_world.
  set (b := (init hostname config w).1).
  destruct (flush_spec clock (b_debug b) (b_targetBuilder b) (b_publishItems b)
              (b_flushInterval b) timestamp m
              (World initialStats (w_log w) (w_ticks w)))
    as (Hres & (_ & _ & Hexc) & _).
  cbn [w_stats w_ticks] in Hres, Hexc. rewrite Hres. cbn [fst snd].
  set (items := generated (b_targetBuilder b) (b_publishItems b)
                          (b_flushInterval b) m) in *.
  set (w1 := (flush clock (b_debug b) (b_targetBuilder b) (b_publishItems b)
                    (b_flushInterval b) timestamp m
                    (World initialStats (w_log w) (w_ticks w))).2) in *.
  destruct (onResponse_success clock (b_debug b) timestamp (clock (w_ticks w))
              items r w1 Hok) as (H1 & H2 & H3 & _).
  pose proof (onResponse_flush_length clock (b_debug b) timestamp
                (clock (w_ticks w)) items r w1) as H4.
  unfold status, statsEntries. cbn [fmap list_fmap].
  rewrite H1, H2, H3, H4, Hexc. reflexivity.
Qed.

Lemma status_after_flush_witness :
  let b := (init "localhost" staticConfig initialWorld).1 in
  let run := flush sampleClock (b_debug b) (b_targetBuilder b) (b_publishItems b)
                   (b_flushInterval b) 990 sampleMetrics
                   (init "localhost" staticConfig initialWorld).2 in
  status (run.1.2 (Response None None (Some 3%Z)) run.2).2
  = [(None, "zabbix", "last_flush", 990%Z);
     (None, "zabbix", "last_exception",
      match failures (b_targetBuilder b) (statNames sampleMetrics) with
      | O => 0%Z
      | S k => sampleClock (S (w_ticks initialWorld + k))
      end);
     (None, "zabbix", "flush_time", (sampleClock (w_ticks initialWorld) - 990)%Z);
     (None, "zabbix", "flush_length",
      Z.max (default 0%Z (total (Response None None (Some 3%Z))))
            (Z.of_nat (List.length run.1.1)))].
Proof.
  apply (status_after_flush sampleClock "localhost" staticConfig 990
           sampleMetrics (Response None None (Some 3%Z)) initialWorld).
  reflexivity.
Defined.

Lemma init_static hostname config h w :
  Config.zabbixTargetHostname config = Some h ->
  JsString.truthy (Some h) = true ->
  (init hostname config w).1
  = Bindings (Config.debug config) (fun stat => Ok (targetStatic h stat))
             (default ∅ (Config.zabbixPublishItems config))
             (Config.flushInterval config).
Proof.
  intros Hhost Htruthy. unfold init. rewrite Hhost, Htruthy. reflexivity.
Qed.

Lemma static_never_fails h names :
  failures (fun stat => Ok (targetStatic h stat)) names = 0%nat.
Proof.
  unfold failures, failing. induction names as [|stat names IH]; [reflexivity|].
  exact IH.
Qed.

(** With a static target hostname configured, a flush publishes every
    metric of the snapshot under that host, keyed by the metric's own
    name, and never records an exception. *)
Theorem init_static_flush clock hostname config h timestamp m w :
  Config.zabbixTargetHostname config = Some h ->
  JsString.truthy (Some h) = true ->
  let b := (init hostname config w).1 in
  let run := flush clock (b_debug b) (b_targetBuilder b) (b_publishItems b)
                   (b_flushInterval b) timestamp m (init hostname config w).2 in
  run.1.1
  = flat_map (fun e => itemsForCounter (b_publishItems b !! "counters")
                                       (b_flushInterval b) h e.1 e.2)
             (counters m)
    ++ flat_map (fun e => (itemsForTimer (b_publishItems b !! "timers")
                                         (pctThreshold m) h e.1 e.2).1)
                (timers m)
    ++ flat_map (fun e => itemsForGauge (b_publishItems b !! "guages") h e.1 e.2)
                (gauges m)
  /\ last_exception (w_stats run.2) = 0%Z.
Proof.
  intros Hhost Htruthy. cbv zeta.
  rewrite (init_static hostname config h w Hhost Htruthy), init_world.
  cbn [b_debug b_targetBuilder b_publishItems b_flushInterval].
  destruct (flush_spec clock (Config.debug config)
              (fun stat => Ok (targetStatic h stat))
              (default ∅ (Config.zabbixPublishItems config))
              (Config.flushInterval config) timestamp m
              (World initialStats (w_log w) (w_ticks w)))
    as (Hres & (_ & _ & Hexc) & _).
  rewrite static_never_fails in Hexc. split.
  - rewrite Hres. reflexivity.
  - exact Hexc.
Qed.

Lemma init_static_flush_witness :
  let b := (init "localhost" staticConfig initialWorld).1 in
  let run := flush sampleClock (b_debug b) (b_targetBuilder b) (b_publishItems b)
                   (b_flushInterval b) 990 sampleMetrics
                   (init "localhost" staticConfig initialWorld).2 in
  run.1.1
  = flat_map (fun e => itemsForCounter (b_publishItems b !! "counters")
                                       (b_flushInterval b) "zbx-host" e.1 e.2)
             (counters sampleMetrics)
    ++ flat_map (fun e => (itemsForTimer (b_publishItems b !! "timers")
                                         (pctThreshold sampleMetrics)
                                         "zbx-host" e.1 e.2).1)
                (timers sampleMetrics)
    ++ flat_map (fun e => itemsForGauge (b_publishItems b !! "guages")
                                        "zbx-host" e.1 e.2)
                (gauges sampleMetrics)
  /\ last_exception (w_stats run.2) = 0%Z.
Proof.
  apply (init_static_flush sampleClock "localhost" staticConfig "zbx-host"
           990 sampleMetrics initialWorld); reflexivity.
Defined.

(** * Properties *)

(** ** Strings *)

Lemma split_nonempty sep s : JsString.split sep s <> [].
Proof.
  destruct s as [|c s]; simpl; [discriminate|].
  destruct (Ascii.eqb c sep); [discriminate|].
  destruct (JsString.split sep s); discriminate.
Qed.

Lemma join_cons sep x y l :
  JsString.join sep (x :: y :: l)
  = (x ++ String sep (JsString.join sep (y :: l)))%string.
Proof. reflexivity. Qed.

(** Joining the parts of a split gives the string back. *)
Lemma join_split sep s : JsString.join sep (JsString.split sep s) = s.
Proof.
  induction s as [|c s IH]; [reflexivity|].
  simpl. destruct (Ascii.eqb_spec c sep) as [->|Hne].
  - pose proof (split_nonempty sep s) as Hs.
    destruct (JsString.split sep s) as [|p ps]; [congruence|].
    rewrite join_cons, IH. reflexivity.
  - pose proof (split_nonempty sep s) as Hs.
    destruct (JsString.split sep s) as [|p [|q ps]]; [congruence| |].
    + simpl in *. congruence.
    + rewrite <- IH. reflexivity.

Qed.

(** A string without the separator is a single part. *)
Lemma split_absent sep s :
  JsString.occurs sep s = false -> JsString.split sep s = [s].
Proof.
  induction s as [|c s IH]; [reflexivity|].
  simpl. intros [Hc Hs]%orb_false_elim. rewrite Hc, (IH Hs). reflexivity.
Qed.

(** The first part ends at the first separator. *)
Lemma split_first sep h rest :
  JsString.occurs sep h = false ->
  JsString.split sep (h ++ String sep rest)%string = h :: JsString.split sep rest.
Proof.
  induction h as [|c h IH]; simpl.
  - intros _. rewrite Ascii.eqb_refl. reflexivity.
  - intros [Hc Hs]%orb_false_elim. rewrite Hc, (IH Hs). reflexivity.
Qed.

Lemma startsWith_app p s : JsString.startsWith (p ++ s)%string p = true.
Proof.
  unfold JsString.startsWith.
  induction p as [|c p IH]; simpl; [destruct s; reflexivity|].
  destruct (ascii_dec c c); [exact IH | congruence].
Qed.

Lemma truthy_Some s : JsString.truthy (Some s) = true -> s <> "".
Proof. destruct s; [discriminate | discriminate]. Qed.

(** ** Target resolver *)

Section ResolverFacts.

Variable hostname : string.

(** C4, as amended: a name whose split on ['.'] is
    [[namespace; host; key]] with namespace [logstash] or [kamon] and with
    non-empty host and key resolves without throwing; underscores become
    dots in host and key for [logstash], in the host only for [kamon]. *)
Theorem targetDecode_grammar1 (stat namespace h k : string) :
  JsString.split "." stat = [namespace; h; k] ->
  namespace = "logstash" \/ namespace = "kamon" ->
  JsString.truthy (Some h) = true ->
  JsString.truthy (Some k) = true ->
  targetDecode hostname stat
  = Ok (Target.mk (JsString.replaceAll "_" "." h)
                  (if String.eqb namespace "logstash"
                   then JsString.replaceAll "_" "." k else k)).
Proof.
  intros Hsplit Hns Hh Hk.
  assert (Hstat : stat = JsString.join "." [namespace; h; k])
    by (rewrite <- Hsplit, join_split; reflexivity).
  unfold targetDecode, decodeParts. rewrite Hsplit.
  assert (Hpre : JsString.startsWith stat "logstash."
                 || JsString.startsWith stat "kamon." = true).
  { subst stat. destruct Hns as [-> | ->].
    - change (JsString.join "." ["logstash"; h; k])
        with ("logstash." ++ JsString.join "." [h; k])%string.
      rewrite startsWith_app. reflexivity.
    - change (JsString.join "." ["kamon"; h; k])
        with ("kamon." ++ JsString.join "." [h; k])%string.
      rewrite startsWith_app. apply orb_true_r. }
  rewrite Hpre. simpl.
  destruct h as [|a h]; [discriminate|].
  destruct k as [|b k]; [discriminate|].
  destruct Hns as [-> | ->]; reflexivity.
Qed.

(** C4 as it is stated fails: a three-part [logstash] name with an empty
    host part reaches the guard of line 102 and throws. *)
Lemma targetDecode_grammar1_empty_part :
  ~ (forall stat namespace h k : string,
       JsString.split "." stat = [namespace; h; k] ->
       namespace = "logstash" \/ namespace = "kamon" ->
       exists t, targetDecode "localhost" stat = Ok t).
Proof.
  intros Hclaim.
  destruct (Hclaim "logstash..cpu" "logstash" "" "cpu" eq_refl (or_introl eq_refl))
    as [t Ht].
  vm_compute in Ht. discriminate Ht.
Qed.

Lemma startsWith_char c s :
  JsString.startsWith s (String c "") = true -> exists r, s = String c r.
Proof.
  unfold JsString.startsWith. destruct s as [|a r]; simpl; [discriminate|].
  destruct (ascii_dec c a) as [->|]; [eauto | discriminate].
Qed.

Lemma append_empty_r s : (s ++ "")%string = s.
Proof.
  induction s as [|c s IH]; [reflexivity|].
  change (String c (s ++ "")%string = String c s). rewrite IH. reflexivity.
Qed.


(** C1, as amended: outside the first two grammars the name is split on
    every underscore and only the first two parts are kept; host is the
    text before the first underscore and key is the text between the first
    underscore and the second one (or the end of the name); with both
    non-empty the resolution succeeds with that host and key. *)
Theorem targetDecode_default (stat h k rest : string) :
  matchesGrammar1 stat = false ->
  JsString.startsWith stat "statsd." = false ->
  JsString.occurs "_" h = false ->
  JsString.occurs "_" k = false ->
  rest = "" \/ JsString.startsWith rest "_" = true ->
  stat = (h ++ "_" ++ k ++ rest)%string ->
  decodeParts hostname stat = (Some h, Some k)
  /\ (JsString.truthy (Some h) = true -> JsString.truthy (Some k) = true ->
      targetDecode hostname stat = Ok (Target.mk h k)).
Proof.
  intros Hg1 Hstatsd Hh Hk Hrest Hstat.
  assert (Hparts : decodeParts hostname stat = (Some h, Some k)).
  { unfold decodeParts. unfold matchesGrammar1 in Hg1. rewrite Hg1, Hstatsd.
    subst stat. change (h ++ "_" ++ k ++ rest)%string
      with (h ++ String "_" (k ++ rest))%string.
    rewrite (split_first "_" h _ Hh).
    destruct Hrest as [-> | Hrest].
    - rewrite append_empty_r, (split_absent "_" k Hk). reflexivity.
    - destruct (startsWith_char _ _ Hrest) as [r ->].
      rewrite (split_first "_" k r Hk). reflexivity. }
  split; [exact Hparts|].
  intros Th Tk. unfold targetDecode. rewrite Hparts, Th, Tk. reflexivity.
Qed.

(** Without an underscore there is no key and the resolution throws. *)
Lemma targetDecode_no_underscore (stat : string) :
  matchesGrammar1 stat = false ->
  JsString.startsWith stat "statsd." = false ->
  JsString.occurs "_" stat = false ->
  targetDecode hostname stat = Throw ("failed to decode stat: " ++ stat).
Proof.
  intros Hg1 Hstatsd Hno. unfold targetDecode, decodeParts.
  unfold matchesGrammar1 in Hg1. rewrite Hg1, Hstatsd.
  rewrite (split_absent "_" stat Hno). simpl.
  destruct stat; reflexivity.
Qed.

(** C1 as it is stated fails: with a second underscore in the name the
    key is not the whole remainder. *)
Lemma targetDecode_default_second_underscore :
  ~ (forall stat h rest : string,
       matchesGrammar1 stat = false ->
       JsString.startsWith stat "statsd." = false ->
       JsString.occurs "_" h = false ->
       stat = (h ++ "_" ++ rest)%string ->
       JsString.truthy (Some h) = true ->
       JsString.truthy (Some rest) = true ->
       targetDecode "localhost" stat = Ok (Target.mk h rest)).
Proof.
  intros Hclaim.
  specialize (Hclaim "web1_cpu_load" "web1" "cpu_load"
                eq_refl eq_refl eq_refl eq_refl eq_refl eq_refl).
  vm_compute in Hclaim. discriminate Hclaim.
Qed.

(** *** Further properties of the resolver *)

(** A successful resolution never yields an empty host or key, and a
    failure always carries the name that could not be decoded. *)
Theorem targetDecode_result_shape (stat : string) :
  match targetDecode hostname stat with
  | Ok t => Target.host t <> "" /\ Target.key t <> ""
  | Throw msg => msg = ("failed to decode stat: " ++ stat)%string
  end.
Proof.
  unfold targetDecode.
  destruct (decodeParts hostname stat) as [[[|a h]|] [[|b k]|]]; simpl;
    try reflexivity.
  split; discriminate.
Qed.

Lemma startsWith_split p s :
  JsString.startsWith s p = true -> exists r, s = (p ++ r)%string.
Proof.
  unfold JsString.startsWith. revert s.
  induction p as [|c p IH]; intros s; simpl.
  - intros _. exists s. reflexivity.
  - destruct s as [|a s]; [discriminate|]. simpl.
    destruct (ascii_dec c a) as [->|]; [|discriminate].
    intros [r ->]%IH. exists r. reflexivity.
Qed.

(** A name that starts with [statsd.] is published under the process
    hostname with the whole name as key; it fails only when that hostname
    is empty. *)
Theorem targetDecode_statsd_branch (stat : string) :
  JsString.startsWith stat "statsd." = true ->
  targetDecode hostname stat
  = if JsString.truthy (Some hostname)
    then Ok (Target.mk hostname stat)
    else Throw ("failed to decode stat: " ++ stat).
Proof.
  intros Hpre. destruct (startsWith_split _ _ Hpre) as [r ->].
  unfold targetDecode, decodeParts. rewrite Hpre.
  replace (JsString.startsWith ("statsd." ++ r) "logstash.") with false
    by reflexivity.
  replace (JsString.startsWith ("statsd." ++ r) "kamon.") with false
    by reflexivity.
  simpl. destruct hostname; reflexivity.
Qed.

(** No part of a split contains the separator. *)
Lemma split_parts_free sep s :
  Forall (fun part => JsString.occurs sep part = false) (JsString.split sep s).
Proof.
  induction s as [|c s IH]; simpl; [repeat constructor|].
  destruct (Ascii.eqb c sep) eqn:Hc.
  - constructor; [reflexivity | exact IH].
  - destruct (JsString.split sep s) as [|part parts]; simpl.
    + repeat constructor. simpl. rewrite Hc. reflexivity.
    + inversion IH as [|? ? Hpart Hparts]; subst.
      constructor; [simpl; rewrite Hc; exact Hpart | exact Hparts].
Qed.

Lemma replaceAll_free c d s :
  c <> d -> JsString.occurs c (JsString.replaceAll c d s) = false.
Proof.
  intros Hne. induction s as [|a s IH]; simpl; [reflexivity|].
  rewrite IH, orb_false_r.
  destruct (Ascii.eqb_spec a c) as [->|Hac].
  - apply Ascii.eqb_neq. congruence.
  - apply Ascii.eqb_neq. exact Hac.
Qed.

(** The first part of a name that starts with [ns.] is [ns]. *)
Lemma split_namespace ns stat :
  JsString.occurs "." ns = false ->
  JsString.startsWith stat (ns ++ ".") = true ->
  JsString.split "." stat !! 0%nat = Some ns.
Proof.
  intros Hns [r ->]%startsWith_split.
  replace ((ns ++ ".") ++ r)%string with (ns ++ String "." r)%string.
  - rewrite (split_first "." ns r Hns). reflexivity.
  - clear Hns. induction ns as [|c ns IH]; [reflexivity|].
    change (String c (ns ++ String "." r) = String c ((ns ++ ".") ++ r))%string.
    rewrite IH. reflexivity.
Qed.

(** The last branch: both parts come from the split on ['_']. *)
Lemma targetDecode_default_parts (stat : string) (t : Target.t) (P : Prop) :
  (let '(host, key) :=
     (JsString.split "_" stat !! 0%nat, JsString.split "_" stat !! 1%nat) in
   if negb (JsString.truthy host) || negb (JsString.truthy key)
   then Throw ("failed to decode stat: " ++ stat)
   else match host, key with
        | Some h, Some k => Ok (Target.mk h k)
        | _, _ => Throw ("failed to decode stat: " ++ stat)
        end) = Ok t ->
  JsString.occurs "_" (Target.host t) = false
  /\ (P -> JsString.occurs "_" (Target.key t) = false).
Proof.
  pose proof (split_parts_free "_" stat) as Hfree.
  destruct (JsString.split "_" stat) as [|h [|k rest]]; simpl;
    [discriminate | destruct h; discriminate |].
  inversion Hfree as [|? ? Hh Hrest]; subst.
  inversion Hrest as [|? ? Hk _]; subst.
  destruct h, k; simpl; try discriminate.
  intros [= <-]. simpl in *. auto.
Qed.

(** Outside the [statsd.] grammar a resolved host never contains an
    underscore, and outside the first grammar as well the key contains
    none either: what follows a second underscore is not part of it. *)
Theorem targetDecode_no_underscore_left (stat : string) (t : Target.t) :
  JsString.startsWith stat "statsd." = false ->
  targetDecode hostname stat = Ok t ->
  JsString.occurs "_" (Target.host t) = false
  /\ (matchesGrammar1 stat = false -> JsString.occurs "_" (Target.key t) = false).
Proof.
  intros Hstatsd. unfold targetDecode, decodeParts, matchesGrammar1.
  rewrite Hstatsd.
  destruct (JsString.startsWith stat "logstash." || JsString.startsWith stat "kamon.")
    eqn:Hpre; simpl.
  - destruct (List.length (JsString.split "." stat) =? 3)%nat eqn:Hlen; simpl.
    + assert (Hns : JsString.split "." stat !! 0%nat = Some "logstash"
                    \/ JsString.split "." stat !! 0%nat = Some "kamon").
      { apply orb_true_iff in Hpre as [H | H]; [left | right].
        - exact (split_namespace "logstash" stat eq_refl H).
        - exact (split_namespace "kamon" stat eq_refl H). }
      destruct (JsString.split "." stat !! 1%nat) as [h|];
        [|destruct Hns as [-> | ->]; simpl; discriminate].
      destruct (JsString.replaceAll "_" "." h) as [|a h'] eqn:Eh;
        [destruct Hns as [-> | ->]; simpl; rewrite Eh; simpl; discriminate|].
      assert (Hfree : JsString.occurs "_" (String a h') = false)
        by (rewrite <- Eh; apply replaceAll_free; discriminate).
      destruct Hns as [-> | ->]; simpl; rewrite Eh; simpl.
      * destruct (JsString.replaceAll "_" "." <$> JsString.split "." stat !! 2%nat)
          as [[|b k']|]; simpl; try discriminate.
        intros [= <-]. split; [exact Hfree | discriminate].
      * destruct (JsString.split "." stat !! 2%nat) as [[|b k']|]; simpl;
          try discriminate.
        intros [= <-]. split; [exact Hfree | discriminate].
    + apply targetDecode_default_parts.
  - apply targetDecode_default_parts.
Qed.

End ResolverFacts.

Lemma targetDecode_grammar1_witness :
  targetDecode "localhost" "kamon.web_1.cpu_load" = Ok (Target.mk "web.1" "cpu_load").
Proof.
  apply (targetDecode_grammar1 "localhost" "kamon.web_1.cpu_load"
           "kamon" "web_1" "cpu_load");
    [reflexivity | right; reflexivity | reflexivity | reflexivity].
Defined.

Lemma targetDecode_statsd_branch_witness :
  targetDecode "localhost" "statsd.bad_lines_seen"
  = if JsString.truthy (Some "localhost")
    then Ok (Target.mk "localhost" "statsd.bad_lines_seen")
    else Throw ("failed to decode stat: " ++ "statsd.bad_lines_seen").
Proof.
  apply (targetDecode_statsd_branch "localhost" "statsd.bad_lines_seen").
  reflexivity.
Defined.

Lemma targetDecode_no_underscore_witness :
  targetDecode "localhost" "nohost" = Throw ("failed to decode stat: " ++ "nohost").
Proof.
  apply (targetDecode_no_underscore "localhost" "nohost"); reflexivity.
Defined.

Lemma targetDecode_no_underscore_left_witness :
  JsString.occurs "_" (Target.host (Target.mk "web1" "cpu")) = false
  /\ (matchesGrammar1 "web1_cpu_load" = false ->
      JsString.occurs "_" (Target.key (Target.mk "web1" "cpu")) = false).
Proof.
  apply (targetDecode_no_underscore_left "localhost" "web1_cpu_load"
           (Target.mk "web1" "cpu")); reflexivity.
Defined.

Lemma targetDecode_default_witness :
  decodeParts "localhost" "web1_cpu_load" = (Some "web1", Some "cpu")
  /\ (JsString.truthy (Some "web1") = true -> JsString.truthy (Some "cpu") = true ->
      targetDecode "localhost" "web1_cpu_load" = Ok (Target.mk "web1" "cpu")).
Proof.
  apply (targetDecode_default "localhost" "web1_cpu_load" "web1" "cpu" "_load");
    [reflexivity | reflexivity | reflexivity | reflexivity
    | right; reflexivity | reflexivity].
Defined.

(** ** Sorting of the samples *)

Section SortFacts.

Local Open Scope Q_scope.

Lemma ascending_le a b :
  Qle_bool (JsArray.ascending a b) 0 = true <-> a <= b.
Proof.
  unfold JsArray.ascending. rewrite Qle_bool_iff. split; intros H; lra.
Qed.

Lemma ascending_gt a b :
  Qle_bool (JsArray.ascending a b) 0 = false -> b <= a.
Proof.
  intros H. destruct (Qlt_le_dec b a) as [Hlt | Hle]; [lra|].
  apply ascending_le in Hle. congruence.
Qed.

Lemma insert_Permutation cmp x l :
  Permutation (x :: l) (JsArray.insert cmp x l).
Proof.
  induction l as [|y l IH]; simpl; [reflexivity|].
  destruct (Qle_bool (cmp x y) 0); [reflexivity|].
  rewrite perm_swap. apply perm_skip, IH.
Qed.

Lemma sort_Permutation cmp l : Permutation l (JsArray.sort cmp l).
Proof.
  induction l as [|x l IH]; simpl; [reflexivity|].
  rewrite <- insert_Permutation. apply perm_skip, IH.
Qed.

Lemma insert_HdRel x y l :
  y <= x -> HdRel Qle y l -> HdRel Qle y (JsArray.insert JsArray.ascending x l).
Proof.
  intros Hyx Hl. destruct l as [|z l]; simpl; [constructor; exact Hyx|].
  destruct (Qle_bool (JsArray.ascending x z) 0); constructor.
  - exact Hyx.
  - inversion Hl; assumption.
Qed.

Lemma insert_Sorted x l :
  Sorted Qle l -> Sorted Qle (JsArray.insert JsArray.ascending x l).
Proof.
  induction 1 as [|y l Hs IH Hhd]; simpl; [repeat constructor|].
  destruct (Qle_bool (JsArray.ascending x y) 0) eqn:Hxy.
  - apply ascending_le in Hxy. repeat constructor; assumption.
  - apply ascending_gt in Hxy. constructor; [exact IH|].
    apply insert_HdRel; assumption.
Qed.

Lemma sort_Sorted l : Sorted Qle (JsArray.sort JsArray.ascending l).
Proof.
  induction l as [|x l IH]; simpl; [constructor|]. apply insert_Sorted, IH.
Qed.

(** An array that is already in ascending order is left as it is. *)
Lemma sort_fixed l :
  Sorted Qle l -> JsArray.sort JsArray.ascending l = l.
Proof.
  induction 1 as [|x l Hs IH Hhd]; simpl; [reflexivity|].
  rewrite IH. destruct Hhd as [|y l Hxy]; simpl; [reflexivity|].
  apply ascending_le in Hxy. rewrite Hxy. reflexivity.
Qed.

Lemma sort_idempotent l :
  JsArray.sort JsArray.ascending (JsArray.sort JsArray.ascending l)
  = JsArray.sort JsArray.ascending l.
Proof. apply sort_fixed, sort_Sorted. Qed.

End SortFacts.

(** ** Timer generator *)

Lemma itemsForTimer_enabled_snd publishOpts percentiles host key data :
  readSetting publishOpts "enabled" true = true ->
  snd (itemsForTimer publishOpts percentiles host key data)
  = JsArray.sort JsArray.ascending data.
Proof. intros Hen. unfold itemsForTimer. rewrite Hen. reflexivity. Qed.

(** C10: when the category is enabled, the caller's array holds the
    ascending sort of the samples it passed in once [itemsForTimer]
    returns: a sorted permutation of the original sequence. *)
Theorem itemsForTimer_sorts_in_place publishOpts percentiles host key data :
  readSetting publishOpts "enabled" true = true ->
  let data' := snd (itemsForTimer publishOpts percentiles host key data) in
  data' = JsArray.sort JsArray.ascending data
  /\ Sorted Qle data'
  /\ Permutation data data'.
Proof.
  intros Hen. cbv zeta. rewrite (itemsForTimer_enabled_snd _ _ _ _ _ Hen).
  split; [reflexivity|]. split; [apply sort_Sorted | apply sort_Permutation].
Qed.

Lemma itemsForTimer_sorts_in_place_witness :
  let data' := snd (itemsForTimer None [90%Q] "h" "k" [3; 1; 2]%Q) in
  data' = JsArray.sort JsArray.ascending [3; 1; 2]%Q
  /\ Sorted Qle data'
  /\ Permutation [3; 1; 2]%Q data'.
Proof.
  apply (itemsForTimer_sorts_in_place None [90%Q] "h" "k" [3; 1; 2]%Q).
  reflexivity.
Defined.

(** A disabled category leaves the array alone. *)
Lemma itemsForTimer_disabled publishOpts percentiles host key data :
  readSetting publishOpts "enabled" true = false ->
  itemsForTimer publishOpts percentiles host key data = ([], data).
Proof. intros Hen. unfold itemsForTimer. rewrite Hen. reflexivity. Qed.

(** The items depend on the samples through their ascending sort only. *)
Lemma itemsForTimer_of_sorted publishOpts percentiles host key data :
  fst (itemsForTimer publishOpts percentiles host key
         (JsArray.sort JsArray.ascending data))
  = fst (itemsForTimer publishOpts percentiles host key data).
Proof.
  unfold itemsForTimer.
  destruct (readSetting publishOpts "enabled" true); [|reflexivity].
  rewrite sort_idempotent. reflexivity.
Qed.

(** C9: a second call on the same array, which the first call may have
    sorted, returns the items of the first call, and the items for a
    sequence are those for its ascending sort. *)
Theorem itemsForTimer_idempotent publishOpts percentiles host key data :
  let first := itemsForTimer publishOpts percentiles host key data in
  let second := itemsForTimer publishOpts percentiles host key (snd first) in
  fst second = fst first
  /\ snd second = snd first
  /\ fst (itemsForTimer publishOpts percentiles host key
            (JsArray.sort JsArray.ascending data)) = fst first.
Proof.
  cbv zeta. split; [|split].
  - destruct (readSetting publishOpts "enabled" true) eqn:Hen.
    + rewrite (itemsForTimer_enabled_snd _ _ _ _ _ Hen).
      apply itemsForTimer_of_sorted.
    + rewrite !(itemsForTimer_disabled _ percentiles host key _ Hen). reflexivity.
  - destruct (readSetting publishOpts "enabled" true) eqn:Hen.
    + rewrite !(itemsForTimer_enabled_snd _ _ _ _ _ Hen).
      apply sort_idempotent.
    + rewrite !(itemsForTimer_disabled _ percentiles host key _ Hen). reflexivity.
  - apply itemsForTimer_of_sorted.
Qed.

Lemma allEnabled_flags publishOpts :
  allEnabled publishOpts = true ->
  readSetting publishOpts "enabled" true = true
  /\ readSetting publishOpts "send_lower" true = true
  /\ readSetting publishOpts "send_upper" true = true
  /\ readSetting publishOpts "send_count" true = true
  /\ readSetting publishOpts "send_mean_percentile" true = true
  /\ readSetting publishOpts "send_upper_percentile" true = true.
Proof.
  unfold allEnabled. simpl. rewrite !andb_true_iff. tauto.
Qed.

Ltac use_flags H :=
  destruct (allEnabled_flags _ H) as (?Hen & ?Hlo & ?Hup & ?Hcn & ?Hmp & ?Hupp).

(** The two zero-valued items of one percentile. *)
Lemma timerStep_few_samples host key values count items p :
  (count <=? 1)%Z = true ->
  timerStep true true host key values count (TimerLoop items None None) p
  = TimerLoop
      (items ++ [Item.mk host (key ++ "[mean][" ++ strPercentile p ++ "]") (Fin 0);
                 Item.mk host (key ++ "[upper][" ++ strPercentile p ++ "]") (Fin 0)])
      None None.
Proof.
  intros Hc. unfold timerStep.
  replace (1 <? count)%Z with false by lia.
  simpl. unfold push. rewrite <- app_assoc. reflexivity.
Qed.

Lemma timerLoop_few_samples host key values count percentiles items :
  (count <=? 1)%Z = true ->
  tl_items (foldl (timerStep true true host key values count)
                  (TimerLoop items None None) percentiles)
  = items ++ flat_map
      (fun p => [Item.mk host (key ++ "[mean][" ++ strPercentile p ++ "]") (Fin 0);
                 Item.mk host (key ++ "[upper][" ++ strPercentile p ++ "]") (Fin 0)])
      percentiles.
Proof.
  intros Hc. revert items.
  induction percentiles as [|p ps IH]; intros items; simpl.
  - rewrite app_nil_r. reflexivity.
  - rewrite (timerStep_few_samples _ _ _ _ _ _ Hc), IH, <- app_assoc. reflexivity.
Qed.

(** C8: on an empty sample sequence with every toggle on, the timer
    generator emits [key[lower]], [key[upper]] and [key[count]] with value
    0, then for each percentile [key[mean][p]] and [key[upper][p]] with
    value 0, and nothing else. *)
Theorem itemsForTimer_empty publishOpts percentiles host key :
  allEnabled publishOpts = true ->
  fst (itemsForTimer publishOpts percentiles host key [])
  = [Item.mk host (key ++ "[lower]") (Fin 0);
     Item.mk host (key ++ "[upper]") (Fin 0);
     Item.mk host (key ++ "[count]") (Fin 0)]
    ++ flat_map
         (fun p => [Item.mk host (key ++ "[mean][" ++ strPercentile p ++ "]") (Fin 0);
                    Item.mk host (key ++ "[upper][" ++ strPercentile p ++ "]") (Fin 0)])
         percentiles.
Proof.
  intros Hall. use_flags Hall.
  unfold itemsForTimer. rewrite Hen, Hlo, Hup, Hcn, Hmp, Hupp. simpl.
  apply (timerLoop_few_samples host key [] 0%Z percentiles). reflexivity.
Qed.

Lemma itemsForTimer_empty_witness :
  fst (itemsForTimer (Some ∅) [90; 99.9]%Q "h" "k" [])
  = [Item.mk "h" "k[lower]" (Fin 0);
     Item.mk "h" "k[upper]" (Fin 0);
     Item.mk "h" "k[count]" (Fin 0);
     Item.mk "h" "k[mean][90]" (Fin 0);
     Item.mk "h" "k[upper][90]" (Fin 0);
     Item.mk "h" "k[mean][99_9]" (Fin 0);
     Item.mk "h" "k[upper][99_9]" (Fin 0)].
Proof.
  apply (itemsForTimer_empty (Some ∅) [90; 99.9]%Q "h" "k"). reflexivity.
Defined.

(** C5: ten samples 1..10 at the 90th percentile with every toggle on:
    the threshold index is 1, nine samples are kept, [key[mean][90]] is 5
    and [key[upper][90]] is 9. *)
Theorem itemsForTimer_ten_samples publishOpts host key :
  allEnabled publishOpts = true ->
  let data := [1; 2; 3; 4; 5; 6; 7; 8; 9; 10]%Q in
  thresholdIndex 90 10 = 1%Z
  /\ (10 - thresholdIndex 90 10 = 9)%Z
  /\ JsArray.slice0 (JsArray.sort JsArray.ascending data) 9
     = [1; 2; 3; 4; 5; 6; 7; 8; 9]%Q
  /\ fst (itemsForTimer publishOpts [90%Q] host key data)
     = [Item.mk host (key ++ "[lower]") (Fin 1);
        Item.mk host (key ++ "[upper]") (Fin 10);
        Item.mk host (key ++ "[count]") (Fin 10);
        Item.mk host (key ++ "[mean][90]") (Fin 5);
        Item.mk host (key ++ "[upper][90]") (Fin 9)].
Proof.
  intros Hall data. use_flags Hall.
  split; [reflexivity|]. split; [reflexivity|]. split; [reflexivity|].
  unfold itemsForTimer. rewrite Hen, Hlo, Hup, Hcn, Hmp, Hupp.
  reflexivity.
Qed.

Lemma itemsForTimer_ten_samples_witness :
  let data := [1; 2; 3; 4; 5; 6; 7; 8; 9; 10]%Q in
  thresholdIndex 90 10 = 1%Z
  /\ (10 - thresholdIndex 90 10 = 9)%Z
  /\ JsArray.slice0 (JsArray.sort JsArray.ascending data) 9
     = [1; 2; 3; 4; 5; 6; 7; 8; 9]%Q
  /\ fst (itemsForTimer None [90%Q] "web1" "latency" data)
     = [Item.mk "web1" "latency[lower]" (Fin 1);
        Item.mk "web1" "latency[upper]" (Fin 10);
        Item.mk "web1" "latency[count]" (Fin 10);
        Item.mk "web1" "latency[mean][90]" (Fin 5);
        Item.mk "web1" "latency[upper][90]" (Fin 9)].
Proof.
  apply (itemsForTimer_ten_samples None "web1" "latency"). reflexivity.
Defined.


(** ** Further properties of the generators *)

Lemma readSetting_absent (o : gmap string bool) flag d :
  o !! flag = None -> readSetting (Some o) flag d = readSetting None flag d.
Proof. intros H. unfold readSetting. rewrite H. reflexivity. Qed.

(** An options object that sets none of the flags the generators read
    behaves like no options at all: every flag takes its default. *)
Theorem generators_default_flags (o : gmap string bool) :
  Forall (fun flag => o !! flag = None) knownFlags ->
  (forall flushInterval host key value,
      itemsForCounter (Some o) flushInterval host key value
      = itemsForCounter None flushInterval host key value)
  /\ (forall percentiles host key data,
         itemsForTimer (Some o) percentiles host key data
         = itemsForTimer None percentiles host key data)
  /\ (forall host key value,
         itemsForGauge (Some o) host key value = itemsForGauge None host key value).
Proof.
  intros Hflags. unfold knownFlags in Hflags.
  repeat match goal with
         | H : Forall _ (_ :: _) |- _ =>
             let Hx := fresh "Hflag" in
             apply Forall_cons_1 in H as [Hx H]
         end.
  repeat split; intros;
    unfold itemsForCounter, itemsForTimer, itemsForGauge;
    rewrite ?readSetting_absent by assumption; reflexivity.
Qed.

Lemma generators_default_flags_witness :
  (forall flushInterval host key value,
      itemsForCounter (Some {["verbose" := false]}) flushInterval host key value
      = itemsForCounter None flushInterval host key value)
  /\ (forall percentiles host key data,
         itemsForTimer (Some {["verbose" := false]}) percentiles host key data
         = itemsForTimer None percentiles host key data)
  /\ (forall host key value,
         itemsForGauge (Some {["verbose" := false]}) host key value
         = itemsForGauge None host key value).
Proof.
  apply (generators_default_flags {["verbose" := false]}).
  repeat constructor.
Defined.

(** *** Counters *)



(** A zero interval is not guarded: the rate is then an infinity with the
    sign of the total, or [NaN] for a zero total. *)
Theorem itemsForCounter_zero_interval publishOpts flushInterval host key value :
  readSetting publishOpts "enabled" true = true ->
  readSetting publishOpts "send_total" true = true ->
  readSetting publishOpts "send_avg" true = true ->
  flushInterval == 0 ->
  itemsForCounter publishOpts flushInterval host key value
  = [Item.mk host (key ++ "[total]") (Fin value);
     Item.mk host (key ++ "[avg]")
             match (value ?= 0)%Q with
             | Eq => NaN
             | Lt => NegInf
             | Gt => PosInf
             end].
Proof.
  intros Hen Htot Havg Hz.
  unfold itemsForCounter. rewrite Hen, Htot, Havg. unfold JsNumber.div.
  replace (Qeq_bool 1000 0) with false by reflexivity.
  assert (Hsec : Qeq_bool (Qred (flushInterval / 1000)) 0 = true).
  { apply Qeq_eq_bool. rewrite Qred_correct, Hz. reflexivity. }
  rewrite Hsec. destruct (value ?= 0)%Q; reflexivity.
Qed.

Lemma itemsForCounter_zero_interval_witness :
  itemsForCounter None 0 "web1" "requests" 12
  = [Item.mk "web1" "requests[total]" (Fin 12);
     Item.mk "web1" "requests[avg]" PosInf].
Proof.
  apply (itemsForCounter_zero_interval None 0 "web1" "requests" 12); reflexivity.
Defined.

(** *** Timers: how many items *)

Lemma timerStep_length sm su host key values count st p :
  List.length (tl_items (timerStep sm su host key values count st p))
  = (List.length (tl_items st) + (b2n sm + b2n su))%nat.
Proof.
  unfold timerStep.
  destruct (if (1 <? count)%Z then _ else _) as [mean mx].
  destruct sm, su; simpl; unfold push; rewrite ?length_app; simpl; lia.
Qed.

Lemma timerLoop_length sm su host key values count percentiles st :
  List.length (tl_items (foldl (timerStep sm su host key values count) st percentiles))
  = (List.length (tl_items st) + List.length percentiles * (b2n sm + b2n su))%nat.
Proof.
  revert st. induction percentiles as [|p ps IH]; intros st; simpl; [lia|].
  rewrite IH, timerStep_length. lia.
Qed.

(** The number of items of an enabled timer depends on the flags and on
    the number of percentiles only, never on the samples. *)
Theorem itemsForTimer_length publishOpts percentiles host key data :
  readSetting publishOpts "enabled" true = true ->
  List.length (itemsForTimer publishOpts percentiles host key data).1
  = (b2n (readSetting publishOpts "send_lower" true)
     + b2n (readSetting publishOpts "send_upper" true)
     + b2n (readSetting publishOpts "send_count" true)
     + List.length percentiles
       * (b2n (readSetting publishOpts "send_mean_percentile" true)
          + b2n (readSetting publishOpts "send_upper_percentile" true)))%nat.
Proof.
  intros Hen. unfold itemsForTimer. rewrite Hen. cbn [fst].
  destruct (readSetting publishOpts "send_mean_percentile" true) eqn:Hm,
           (readSetting publishOpts "send_upper_percentile" true) eqn:Hu;
    cbn [orb]; rewrite ?timerLoop_length; cbn [tl_items];
    destruct (readSetting publishOpts "send_lower" true),
             (readSetting publishOpts "send_upper" true),
             (readSetting publishOpts "send_count" true);
    simpl; lia.
Qed.

Lemma itemsForTimer_length_witness :
  List.length (itemsForTimer (Some {["send_count" := false]}) [90; 99]%Q
                             "h" "k" [3; 1; 2]%Q).1
  = 6%nat.
Proof.
  etransitivity.
  - apply (itemsForTimer_length (Some {["send_count" := false]}) [90; 99]%Q
             "h" "k" [3; 1; 2]%Q).
    vm_compute. reflexivity.
  - vm_compute. reflexivity.
Defined.

(** *** Timers: the items of the percentiles *)

Lemma timerStep_carry host key values count items mean mx p :
  (count <=? 1)%Z = true ->
  timerStep true true host key values count (TimerLoop items mean mx) p
  = TimerLoop (items ++ percentileItems host key p (mean, mx)) mean mx.
Proof.
  intros Hc. unfold timerStep, percentileItems.
  replace (1 <? count)%Z with false by lia.
  simpl. unfold push. rewrite <- app_assoc. reflexivity.
Qed.

Lemma timerLoop_carry host key values count percentiles items mean mx :
  (count <=? 1)%Z = true ->
  tl_items (foldl (timerStep true true host key values count)
                  (TimerLoop items mean mx) percentiles)
  = items ++ flat_map (fun p => percentileItems host key p (mean, mx)) percentiles.
Proof.
  intros Hc. revert items.
  induction percentiles as [|p ps IH]; intros items.
  - simpl. rewrite app_nil_r. reflexivity.
  - cbn [foldl flat_map]. rewrite (timerStep_carry _ _ _ _ _ _ _ _ Hc), IH.
    rewrite <- app_assoc. reflexivity.
Qed.

Lemma timerStep_compute host key values count st p :
  (1 <? count)%Z = true ->
  timerStep true true host key values count st p
  = TimerLoop
      (tl_items st ++ percentileItems host key p (percentileStats values count p))
      (percentileStats values count p).1 (percentileStats values count p).2.
Proof.
  intros Hc. unfold timerStep, percentileItems, percentileStats.
  rewrite Hc. simpl. unfold push. rewrite <- app_assoc. reflexivity.
Qed.

Lemma timerLoop_compute host key values count percentiles st :
  (1 <? count)%Z = true ->
  tl_items (foldl (timerStep true true host key values count) st percentiles)
  = tl_items st
    ++ flat_map (fun p => percentileItems host key p (percentileStats values count p))
                percentiles.
Proof.
  intros Hc. revert st.
  induction percentiles as [|p ps IH]; intros st.
  - simpl. rewrite app_nil_r. reflexivity.
  - cbn [foldl flat_map]. rewrite IH, (timerStep_compute _ _ _ _ _ _ Hc).
    cbn [tl_items]. rewrite <- app_assoc. reflexivity.
Qed.

Lemma sort_length cmp l :
  List.length (JsArray.sort cmp l) = List.length l.
Proof. symmetry. apply Permutation_length, sort_Permutation. Qed.

(** A single sample is its own minimum, maximum, mean and upper value at
    every percentile (each printed as 0 when the sample is 0). *)
Theorem itemsForTimer_single publishOpts percentiles host key x :
  allEnabled publishOpts = true ->
  (itemsForTimer publishOpts percentiles host key [x]).1
  = [Item.mk host (key ++ "[lower]") (JsNumber.orZero (Some (Fin x)));
     Item.mk host (key ++ "[upper]") (JsNumber.orZero (Some (Fin x)));
     Item.mk host (key ++ "[count]") (Fin 1)]
    ++ flat_map (fun p => percentileItems host key p (Some (Fin x), Some (Fin x)))
                percentiles.
Proof.
  intros Hall. use_flags Hall.
  unfold itemsForTimer. rewrite Hen, Hlo, Hup, Hcn, Hmp, Hupp. cbn [fst orb].
  apply (timerLoop_carry host key [x] 1%Z percentiles). reflexivity.
Qed.

Lemma itemsForTimer_single_witness :
  (itemsForTimer None [90%Q] "h" "k" [7%Q]).1
  = [Item.mk "h" "k[lower]" (Fin 7);
     Item.mk "h" "k[upper]" (Fin 7);
     Item.mk "h" "k[count]" (Fin 1);
     Item.mk "h" "k[mean][90]" (Fin 7);
     Item.mk "h" "k[upper][90]" (Fin 7)].
Proof.
  apply (itemsForTimer_single None [90%Q] "h" "k" 7%Q). reflexivity.
Defined.

(** With two samples or more and every toggle on, the items are the
    minimum, the maximum and the number of samples, followed for each
    percentile, in order, by the mean and the upper value of its own
    statistics. *)
Theorem itemsForTimer_percentiles publishOpts percentiles host key data :
  allEnabled publishOpts = true ->
  (1 < List.length data)%nat ->
  let values := JsArray.sort JsArray.ascending data in
  let count := Z.of_nat (List.length data) in
  (itemsForTimer publishOpts percentiles host key data).1
  = [Item.mk host (key ++ "[lower]")
             (JsNumber.orZero (Fin <$> JsArray.get values 0));
     Item.mk host (key ++ "[upper]")
             (JsNumber.orZero (Fin <$> JsArray.get values (count - 1)));
     Item.mk host (key ++ "[count]") (Fin (inject_Z count))]
    ++ flat_map (fun p => percentileItems host key p (percentileStats values count p))
                percentiles.
Proof.
  intros Hall Hlen values count. use_flags Hall.
  unfold itemsForTimer. rewrite Hen, Hlo, Hup, Hcn, Hmp, Hupp. cbn [fst orb].
  rewrite (sort_length JsArray.ascending data). fold values count.
  rewrite (timerLoop_compute host key values count percentiles); [reflexivity|].
  subst count. lia.
Qed.

Lemma itemsForTimer_percentiles_witness :
  let values := JsArray.sort JsArray.ascending twoSamples in
  let count := Z.of_nat (List.length twoSamples) in
  (itemsForTimer None [90%Q] "h" "k" twoSamples).1
  = [Item.mk "h" "k[lower]" (JsNumber.orZero (Fin <$> JsArray.get values 0));
     Item.mk "h" "k[upper]"
             (JsNumber.orZero (Fin <$> JsArray.get values (count - 1)));
     Item.mk "h" "k[count]" (Fin (inject_Z count))]
    ++ flat_map (fun p => percentileItems "h" "k" p (percentileStats values count p))
                [90%Q].
Proof.
  apply (itemsForTimer_percentiles None [90%Q] "h" "k" twoSamples);
    [reflexivity | simpl; lia].
Defined.

(** *** Timers: the threshold index *)

Section ThresholdFacts.

Local Open Scope Q_scope.









End ThresholdFacts.


(** *** Timers: minimum, maximum and the mean of a percentile *)

Section ExtremeFacts.

Local Open Scope Q_scope.

Lemma sort_StronglySorted data :
  StronglySorted Qle (JsArray.sort JsArray.ascending data).
Proof.
  apply Sorted.Sorted_StronglySorted; [exact Qle_trans | apply sort_Sorted].
Qed.

(** In a sorted array an earlier element is at most a later one. *)
Lemma sorted_lookup_le (values : list Q) i j x y :
  StronglySorted Qle values -> (i <= j)%nat ->
  values !! i = Some x -> values !! j = Some y -> x <= y.
Proof.
  intros Hs. revert i j. induction Hs as [|a l Hs IH Hall]; intros i j Hij Hx Hy.
  - discriminate.
  - destruct i as [|i], j as [|j]; simpl in *.
    + injection Hx as <-. injection Hy as <-. apply Qle_refl.
    + injection Hx as <-. exact (Forall_lookup_1 _ _ _ _ Hall Hy).
    + lia.
    + apply (IH i j); [lia | assumption | assumption].
Qed.

Lemma get_first {A} (l : list A) : JsArray.get l 0 = l !! 0%nat.
Proof. reflexivity. Qed.

Lemma get_last {A} (l : list A) :
  JsArray.get l (Z.of_nat (List.length l) - 1) = last l.
Proof.
  unfold JsArray.get. rewrite last_lookup. destruct l as [|a l]; [reflexivity|].
  change (List.length (a :: l)) with (S (List.length l)).
  assert (Hge : (Z.of_nat (S (List.length l)) - 1 <? 0)%Z = false)
    by (apply Z.ltb_ge; lia).
  rewrite Hge. f_equal. lia.
Qed.

(** The first and the last element of the sorted samples bound them all. *)
Lemma sorted_extremes data :
  data <> [] ->
  let values := JsArray.sort JsArray.ascending data in
  exists lo hi,
    JsArray.get values 0 = Some lo
    /\ JsArray.get values (Z.of_nat (List.length values) - 1) = Some hi
    /\ In lo data /\ In hi data
    /\ forall x, In x data -> lo <= x /\ x <= hi.
Proof.
  intros Hne values.
  pose proof (sort_Permutation JsArray.ascending data) as Hperm.
  pose proof (sort_StronglySorted data) as Hsorted. fold values in Hperm, Hsorted.
  assert (Hvne : values <> []).
  { intros Hnil. rewrite Hnil in Hperm. symmetry in Hperm.
    apply Permutation_nil in Hperm. contradiction. }
  destruct (proj2 (last_is_Some values) Hvne) as [hi Hhi].
  destruct values as [|lo vs] eqn:Hvalues; [contradiction|].
  exists lo, hi. rewrite get_last, get_first. repeat split; try assumption.
  - apply (Permutation_in lo (Permutation_sym Hperm)). left. reflexivity.
  - apply (Permutation_in hi (Permutation_sym Hperm)).
    rewrite last_lookup in Hhi. apply list_elem_of_In.
    exact (list_elem_of_lookup_2 _ _ _ Hhi).
  - apply (Permutation_in x Hperm), list_elem_of_In, list_elem_of_lookup_1 in H
      as [i Hi].
    apply (sorted_lookup_le (lo :: vs) 0 i lo x Hsorted); [lia | reflexivity | exact Hi].
  - apply (Permutation_in x Hperm), list_elem_of_In, list_elem_of_lookup_1 in H
      as [i Hi].
    rewrite last_lookup in Hhi.
    assert (Hle : (i <= Init.Nat.pred (List.length (lo :: vs)))%nat)
      by (apply lookup_lt_Some in Hi; lia).
    exact (sorted_lookup_le (lo :: vs) i _ x hi Hsorted Hle Hi Hhi).
Qed.

(** The items of a non-empty sample sequence start with its minimum, its
    maximum and its size. *)
Theorem itemsForTimer_extremes publishOpts percentiles host key data :
  allEnabled publishOpts = true ->
  data <> [] ->
  exists lo hi rest,
    (itemsForTimer publishOpts percentiles host key data).1
    = Item.mk host (key ++ "[lower]") (JsNumber.orZero (Some (Fin lo)))
      :: Item.mk host (key ++ "[upper]") (JsNumber.orZero (Some (Fin hi)))
      :: Item.mk host (key ++ "[count]")
                 (Fin (inject_Z (Z.of_nat (List.length data))))
      :: rest
    /\ In lo data /\ In hi data
    /\ forall x, In x data -> lo <= x /\ x <= hi.
Proof.
  intros Hall Hne. use_flags Hall.
  destruct (sorted_extremes data Hne) as (lo & hi & Hlo' & Hhi' & Hin).
  exists lo, hi.
  unfold itemsForTimer. rewrite Hen, Hlo, Hup, Hcn, Hmp, Hupp. cbn [fst orb].
  rewrite Hlo', Hhi', (sort_length JsArray.ascending data).
  set (values := JsArray.sort JsArray.ascending data).
  set (count := Z.of_nat (List.length data)).
  destruct (1 <? count)%Z eqn:Hc.
  - rewrite (timerLoop_compute host key values count percentiles _ Hc).
    eexists. split; [reflexivity | exact Hin].
  - rewrite (timerLoop_carry host key values count percentiles); [|lia].
    eexists. split; [reflexivity | exact Hin].
Qed.




End ExtremeFacts.


Lemma itemsForTimer_extremes_witness :
  exists lo hi rest,
    (itemsForTimer None [90%Q] "h" "k" twoSamples).1
    = Item.mk "h" "k[lower]" (JsNumber.orZero (Some (Fin lo)))
      :: Item.mk "h" "k[upper]" (JsNumber.orZero (Some (Fin hi)))
      :: Item.mk "h" "k[count]" (Fin (inject_Z (Z.of_nat (List.length twoSamples))))
      :: rest
    /\ In lo twoSamples /\ In hi twoSamples
    /\ forall x, In x twoSamples -> (lo <= x /\ x <= hi)%Q.
Proof.
  apply (itemsForTimer_extremes None [90%Q] "h" "k" twoSamples);
    [reflexivity | discriminate].
Defined.

(** ** Publish options of the three categories *)

(** C2 fails on the code: [flush] looks the gauge options up under
    ["guages"], so whatever the configuration holds under ["gauges"],
    here [enabled: false], the gauge is still published. *)
Theorem flush_ignores_gauges_entry :
  (flush sampleClock false (targetDecode "localhost")
         {["gauges" := {["enabled" := false]}]} 10000 990
         gaugeOnly initialWorld).1.1
  = [Item.mk "web1" "load" (Fin 7)].
Proof. vm_compute. reflexivity. Qed.

(** The same option under the key the code reads does switch gauges off. *)
Example flush_reads_guages_entry :
  (flush sampleClock false (targetDecode "localhost")
         {["guages" := {["enabled" := false]}]} 10000 990
         gaugeOnly initialWorld).1.1
  = [].
Proof. vm_compute. reflexivity. Qed.

(** The counters entry is read under its own name. *)
Example flush_reads_counters_entry :
  (flush sampleClock false (targetDecode "localhost")
         {["counters" := {["enabled" := false]}]} 10000 990
         counterOnly initialWorld).1.1
  = [].
Proof. vm_compute. reflexivity. Qed.

(** The gauge generator itself honours the flag it is given. *)
Lemma itemsForGauge_disabled publishOpts host key value :
  readSetting publishOpts "enabled" true = false ->
  itemsForGauge publishOpts host key value = [].
Proof. intros Hen. unfold itemsForGauge. rewrite Hen. reflexivity. Qed.

(** ** Worked examples *)

Example targetDecode_logstash :
  targetDecode "localhost" "logstash.host_example_com.my_key"
  = Ok (Target.mk "host.example.com" "my.key").
Proof. reflexivity. Qed.

Example targetDecode_kamon :
  targetDecode "localhost" "kamon.host_example_com.my_key"
  = Ok (Target.mk "host.example.com" "my_key").
Proof. reflexivity. Qed.

Example targetDecode_statsd :
  targetDecode "localhost" "statsd.bad_lines_seen"
  = Ok (Target.mk "localhost" "statsd.bad_lines_seen").
Proof. reflexivity. Qed.

Example targetDecode_underscore :
  targetDecode "localhost" "host.example.com_my.key"
  = Ok (Target.mk "host.example.com" "my.key").
Proof. reflexivity. Qed.

Example targetDecode_no_separator :
  targetDecode "localhost" "nohost" = Throw "failed to decode stat: nohost".
Proof. reflexivity. Qed.

(** The flush of [sampleMetrics]: [nohost] is skipped, the other four
    metrics are published. *)
Example flush_sample_items :
  (flush sampleClock false (targetDecode "localhost") ∅ 10000 990
         sampleMetrics initialWorld).1.1
  = [Item.mk "web1" "requests[total]" (Fin 12);
     Item.mk "web1" "requests[avg]" (Fin (6 # 5));
     Item.mk "web1" "latency[lower]" (Fin 1);
     Item.mk "web1" "latency[upper]" (Fin 3);
     Item.mk "web1" "latency[count]" (Fin 3);
     Item.mk "web1" "latency[mean][90]" (Fin 2);
     Item.mk "web1" "latency[upper][90]" (Fin 3);
     Item.mk "web2" "load" (Fin 7);
     Item.mk "web2" "mem" (Fin 512)].
Proof. vm_compute. reflexivity. Qed.

Example flush_sample_world :
  (flush sampleClock false (targetDecode "localhost") ∅ 10000 990
         sampleMetrics initialWorld).2
  = World (Stats 0 1001 0 9)
          [("statsd-zabbix-backend: Error: failed to decode stat: nohost", ERROR)]
          2.
Proof. vm_compute. reflexivity. Qed.
